(** * go-httputils: the HTTP coordinator, its health responder and its
      latency recorder

    A shallow embedding of [ok.go], the coordinator file ([Handler], [Serve])
    and the timer file ([Timer]) of package [httputils], together with the
    part of the libraries they call (net/http, gorilla/mux, gorilla/handlers,
    prometheus, logrus, context) that the properties below depend on.

    - Time is logical: [now] counts nanoseconds, as [time.Duration] does, and
      only blocking operations advance it.
    - A Go [error] value is [option Err]; [None] is [nil].
    - A panic is an [Outcome], threaded through the handlers the way the Go
      runtime unwinds the stack.
    - The process-wide histogram [httpDuration] and the log sink live in the
      [World] that every handler threads. *)

From stdpp Require Import gmap strings list.
From Stdlib Require Import ZArith Lia.

Local Open Scope Z_scope.
Local Open Scope string_scope.
Local Set Warnings "-register-all".

(** ** Go errors *)

Inductive Err : Type :=
| ErrServerClosed                 (* http.ErrServerClosed *)
| DeadlineExceeded                (* context.DeadlineExceeded *)
| ErrOther (msg : string).        (* any other error, by its message *)

#[global] Instance Err_eq_dec : EqDecision Err.
Proof. solve_decision. Defined.

(** [err.Error()] *)
Definition Error (e : Err) : string :=
  match e with
  | ErrServerClosed => "http: Server closed"
  | DeadlineExceeded => "context deadline exceeded"
  | ErrOther msg => msg
  end.

(** ** logrus *)

Module logrus.

Inductive Level : Type :=
| FatalLevel | ErrorLevel | WarnLevel | InfoLevel | DebugLevel.

#[global] Instance Level_eq_dec : EqDecision Level.
Proof. solve_decision. Defined.

(** A [logrus.FieldLogger] value, identified by its name. *)
Definition FieldLogger : Type := string.

Record Entry : Type := mkEntry
  { entry_logger : FieldLogger;
    entry_level : Level;
    entry_msg : string }.

#[global] Instance Entry_eq_dec : EqDecision Entry.
Proof. solve_decision. Defined.

End logrus.

(** ** The world a request or the coordinator runs in *)

Record World : Type := mkWorld
  { now : Z;                                  (* logical clock, nanoseconds *)
    log : list logrus.Entry;                  (* everything logged so far *)
    httpDuration : gmap string (list Z) }.    (* label -> observed durations *)

Definition set_now (t : Z) (w : World) : World :=
  {| now := t; log := log w; httpDuration := httpDuration w |}.

Definition set_httpDuration (m : gmap string (list Z)) (w : World) : World :=
  {| now := now w; log := log w; httpDuration := m |}.

Definition write_log (l : logrus.FieldLogger) (lv : logrus.Level)
    (msg : string) (w : World) : World :=
  {| now := now w;
     log := log w ++ [logrus.mkEntry l lv msg];
     httpDuration := httpDuration w |}.

(** [logger.Debugf], [logger.Infof]/[Info]/[Println]: one entry at the
    level.  [Fatalf] writes its entry at [FatalLevel]; that the process exits
    after it is the caller's control flow (see [Serve]). *)
Definition Debugf l msg w := write_log l logrus.DebugLevel msg w.
Definition Infof l msg w := write_log l logrus.InfoLevel msg w.
Definition Fatalf l msg w := write_log l logrus.FatalLevel msg w.

Definition initial_world : World :=
  {| now := 0; log := []; httpDuration := ∅ |}.

(** ** net/http: response writer, requests, outcomes *)

Record ResponseWriter : Type := mkRW
  { rw_status : option Z;                 (* status line sent, if any *)
    rw_header : list (string * string);
    rw_body : string;
    rw_conn_err : option Err }.           (* the connection fails every write *)

Definition fresh_rw (conn_err : option Err) : ResponseWriter :=
  {| rw_status := None; rw_header := []; rw_body := "";
     rw_conn_err := conn_err |}.

(** [w.WriteHeader(code)]: only the first call counts. *)
Definition WriteHeader (code : Z) (rw : ResponseWriter) : ResponseWriter :=
  match rw_status rw with
  | Some _ => rw
  | None => {| rw_status := Some code; rw_header := rw_header rw;
               rw_body := rw_body rw; rw_conn_err := rw_conn_err rw |}
  end.

Definition Header_Set (k v : string) (rw : ResponseWriter) : ResponseWriter :=
  {| rw_status := rw_status rw; rw_header := rw_header rw ++ [(k, v)];
     rw_body := rw_body rw; rw_conn_err := rw_conn_err rw |}.

Definition StatusOK : Z := 200.
Definition StatusMovedPermanently : Z := 301.
Definition StatusNotFound : Z := 404.
Definition StatusInternalServerError : Z := 500.

(** [w.Write(p)]: sends the status 200 first if none was sent, then the
    bytes; a broken connection returns its error and writes nothing. *)
Definition Write (p : string) (rw : ResponseWriter)
    : (Z * option Err) * ResponseWriter :=
  let rw1 := WriteHeader StatusOK rw in
  match rw_conn_err rw1 with
  | Some e => ((0, Some e), rw1)
  | None =>
      ((Z.of_nat (String.length p), None),
       {| rw_status := rw_status rw1; rw_header := rw_header rw1;
          rw_body := rw_body rw1 +:+ p; rw_conn_err := None |})
  end.

(** [fmt.Fprintf(w, format)] with a format that has no verbs: one [Write]
    of the format itself. *)
Definition Fprintf (rw : ResponseWriter) (format : string)
    : (Z * option Err) * ResponseWriter :=
  Write format rw.

Inductive PanicValue : Type :=
| NilPointerDereference           (* runtime error: invalid memory address *)
| UserPanic (msg : string).

Inductive Outcome : Type :=
| Returned
| Panicked (v : PanicValue).

#[global] Instance PanicValue_eq_dec : EqDecision PanicValue.
Proof. solve_decision. Defined.
#[global] Instance Outcome_eq_dec : EqDecision Outcome.
Proof. solve_decision. Defined.

(** ** ok.go *)

(** [OkHandler.ServeHTTP]; the request is ignored ([_ *http.Request]). *)
Definition OkHandler_ServeHTTP {Req : Type} (logger : logrus.FieldLogger)
    (rw : ResponseWriter) (_ : Req) (w : World)
    : Outcome * ResponseWriter * World :=
  let '((_, err), rw') := Fprintf rw "ok" in
  match err with
  | Some e =>
      (Returned, rw', Debugf logger ("failed to write ok response: " +:+ Error e) w)
  | None => (Returned, rw', w)
  end.

(** ** gorilla/mux: routes and the request's matched route *)

Inductive regexpType : Type :=
| regexpTypePath                  (* Route.Path: the whole path *)
| regexpTypePrefix.               (* Route.PathPrefix: the path and below *)

Record routeRegexp : Type := mkRouteRegexp
  { template : string;
    regexp_type : regexpType }.

(** What a [*mux.Route] holds besides its handler: [r.err] and
    [r.regexp.path]. *)
Record RouteConf : Type := mkRouteConf
  { route_err : option Err;
    route_regexp_path : option routeRegexp }.

Record Route (H : Type) : Type := mkRoute
  { route_handler : option H;
    route_conf : RouteConf }.
Arguments mkRoute {H} _ _.
Arguments route_handler {H} _.
Arguments route_conf {H} _.

(** A [*http.Request]: method, URL path and the route stored in its context
    by the router ([None]: no route in the context). *)
Record Request : Type := mkRequest
  { req_method : string;
    req_path : string;
    req_route : option RouteConf }.

Definition Result : Type := Outcome * ResponseWriter * World.

(** The behaviour of a [ServeHTTP] method. *)
Definition ServeFn : Type := ResponseWriter -> Request -> World -> Result.

(** [mux.CurrentRoute(r)]: the route of the request's context, or nil. *)
Definition CurrentRoute (r : Request) : option RouteConf := req_route r.

(** [route.GetPathTemplate()]: reading [r.err] through a nil [*Route]
    panics; a route with an error returns it, a route without a path
    returns an error, both with the empty string. *)
Definition GetPathTemplate (route : option RouteConf)
    : PanicValue + (string * option Err) :=
  match route with
  | None => inl NilPointerDereference
  | Some r =>
      match route_err r with
      | Some e => inr ("", Some e)
      | None =>
          match route_regexp_path r with
          | None => inr ("", Some (ErrOther "mux: route doesn't have a path"))
          | Some re => inr (template re, None)
          end
      end
  end.

(** What the properties need of mux's template compiler, matcher and path
    cleaner; the three are left abstract. *)
Class MuxSem : Type :=
  { (* building the matcher of a template: the error, if it is malformed *)
    newRouteRegexp : regexpType -> string -> option Err;
    (* whether the matcher built from the template accepts a URL path *)
    regexp_match : routeRegexp -> string -> bool;
    (* the canonical form of a URL path *)
    cleanPath : string -> string }.

(** ** prometheus: the histogram vector [httpDuration] *)

(** [vec.WithLabelValues(lv)]: the child of the label, created empty when the
    label is used for the first time. *)
Definition WithLabelValues (lv : string) (m : gmap string (list Z))
    : gmap string (list Z) :=
  match m !! lv with
  | Some _ => m
  | None => <[lv := []]> m
  end.

(** [child.Observe(d)] on the child of label [lv]. *)
Definition Observe (lv : string) (d : Z) (m : gmap string (list Z))
    : gmap string (list Z) :=
  <[lv := (default [] (m !! lv) ++ [d])%list]> m.

(** The observations recorded under a label; none when it has no child. *)
Definition observations (lv : string) (m : gmap string (list Z)) : list Z :=
  default [] (m !! lv).

(** ** The timer file *)

(** [Timer.ServeHTTP], given the behaviour of [h.handler.ServeHTTP]. *)
Definition Timer_ServeHTTP (handler : ServeFn) (logger : logrus.FieldLogger)
    (rw : ResponseWriter) (r : Request) (w : World) : Result :=
  let route := CurrentRoute r in
  match GetPathTemplate route with
  | inl v => (Panicked v, rw, w)
  | inr (path, _) =>
      (* timer := prometheus.NewTimer(httpDuration.WithLabelValues(path)) *)
      let w1 := set_httpDuration (WithLabelValues path (httpDuration w)) w in
      let begin := now w1 in
      match handler rw r w1 with
      | (Panicked v, rw', w') => (Panicked v, rw', w')
      | (Returned, rw', w') =>
          (* timer.ObserveDuration() *)
          (Returned, rw',
           set_httpDuration (Observe path (now w' - begin) (httpDuration w')) w')
      end
  end.

(** ** net/http and gorilla/handlers: the handlers the coordinator composes *)

(** [http.Error(w, error, code)] *)
Definition http_Error (rw : ResponseWriter) (error : string) (code : Z)
    : ResponseWriter :=
  let rw1 := Header_Set "Content-Type" "text/plain; charset=utf-8" rw in
  let rw2 := Header_Set "X-Content-Type-Options" "nosniff" rw1 in
  let rw3 := WriteHeader code rw2 in
  snd (Write (error +:+ String (Ascii.ascii_of_nat 10) "") rw3).

(** [http.NotFoundHandler()] *)
Definition NotFound : ServeFn :=
  fun rw _ w => (Returned, http_Error rw "404 page not found" StatusNotFound, w).

(** The text [recover()] hands to the logger. *)
Definition panic_text (v : PanicValue) : string :=
  match v with
  | NilPointerDereference =>
      "runtime error: invalid memory address or nil pointer dereference"
  | UserPanic msg => msg
  end.

(** The text of [debug.Stack()]; its content is not modelled. *)
Definition debug_Stack : string := "goroutine [running]".

(** [recoveryHandler.ServeHTTP] of gorilla/handlers, given the behaviour of
    the handler it wraps: the deferred function answers a panic with status
    500, prints the panic value and, with [PrintRecoveryStack(true)], the
    stack; the request then ends normally. *)
Definition recoveryHandler_ServeHTTP (handler : ServeFn)
    (logger : logrus.FieldLogger) (printStack : bool)
    (rw : ResponseWriter) (req : Request) (w : World) : Result :=
  match handler rw req w with
  | (Returned, rw', w') => (Returned, rw', w')
  | (Panicked v, rw', w') =>
      let rw'' := WriteHeader StatusInternalServerError rw' in
      let w1 := Infof logger (panic_text v) w' in
      let w2 := if printStack then Infof logger debug_Stack w1 else w1 in
      (Returned, rw'', w2)
  end.

Section WithMux.
Context `{MuxSem}.

(** The configuration of a route just made by [Router.NewRoute]. *)
Definition NewRoute_conf : RouteConf :=
  {| route_err := None; route_regexp_path := None |}.

(** [r.addRegexpMatcher(tpl, typ)] on a route that has no path matcher yet,
    as is every route the coordinator makes: a route with an error keeps it,
    a malformed template becomes the route's error. *)
Definition addRegexpMatcher (tpl : string) (typ : regexpType) (c : RouteConf)
    : RouteConf :=
  match route_err c with
  | Some _ => c
  | None =>
      match newRouteRegexp typ tpl with
      | Some e =>
          {| route_err := Some e; route_regexp_path := route_regexp_path c |}
      | None =>
          {| route_err := None;
             route_regexp_path := Some (mkRouteRegexp tpl typ) |}
      end
  end.

(** A [*mux.Route] is its index in the router's slice of routes: the methods
    below update the route in place, through the pointer. *)

(** [router.NewRoute()] *)
Definition Router_NewRoute {H : Type} (routes : list (Route H))
    : list (Route H) * nat :=
  ((routes ++ [mkRoute None NewRoute_conf])%list, length routes).

(** [route.Path(tpl)] and [route.PathPrefix(tpl)] *)
Definition Route_Path {H : Type} (tpl : string) (route : nat)
    (routes : list (Route H)) : list (Route H) :=
  alter (fun rt => mkRoute (route_handler rt)
                     (addRegexpMatcher tpl regexpTypePath (route_conf rt)))
        route routes.

Definition Route_PathPrefix {H : Type} (tpl : string) (route : nat)
    (routes : list (Route H)) : list (Route H) :=
  alter (fun rt => mkRoute (route_handler rt)
                     (addRegexpMatcher tpl regexpTypePrefix (route_conf rt)))
        route routes.

(** [route.Handler(handler)]: sets the handler unless the route has an
    error. *)
Definition Route_Handler {H : Type} (handler : H) (route : nat)
    (routes : list (Route H)) : list (Route H) :=
  alter (fun rt => match route_err (route_conf rt) with
                   | None => mkRoute (Some handler) (route_conf rt)
                   | Some _ => rt
                   end)
        route routes.

(** [router.Handle(path, handler)] is
    [router.NewRoute().Path(path).Handler(handler)]. *)
Definition Router_Handle {H : Type} (path : string) (handler : H)
    (routes : list (Route H)) : list (Route H) * nat :=
  let '(routes1, route) := Router_NewRoute routes in
  (Route_Handler handler route (Route_Path path route routes1), route).

(** [router.PathPrefix(tpl)] is [router.NewRoute().PathPrefix(tpl)]. *)
Definition Router_PathPrefix {H : Type} (tpl : string)
    (routes : list (Route H)) : list (Route H) * nat :=
  let '(routes1, route) := Router_NewRoute routes in
  (Route_PathPrefix tpl route routes1, route).

(** [route.Match(req, &match)]: a route with an error matches nothing;
    otherwise every matcher has to accept, and the only matcher of the
    routes made here is the one of the path. *)
Definition Route_Match {H : Type} (rt : Route H) (req : Request) : bool :=
  match route_err (route_conf rt) with
  | Some _ => false
  | None =>
      match route_regexp_path (route_conf rt) with
      | Some re => regexp_match re (req_path req)
      | None => true
      end
  end.

(** [router.Match(req, &match)]: the first route that matches. *)
Definition Router_Match {H : Type} (routes : list (Route H)) (req : Request)
    : option (Route H) :=
  List.find (fun rt => Route_Match rt req) routes.

(** [requestWithRoute(req, route)] *)
Definition requestWithRoute (req : Request) (route : RouteConf) : Request :=
  {| req_method := req_method req; req_path := req_path req;
     req_route := Some route |}.

(** [Router.ServeHTTP] over routes whose handlers are given by their
    behaviour: a path that is not clean is redirected; the handler of the
    first matching route runs on the request that carries the route; without
    a match, or with a match that has no handler, the answer is 404. *)
Definition Router_ServeHTTP (routes : list (Route ServeFn))
    (rw : ResponseWriter) (req : Request) (w : World) : Result :=
  if decide (cleanPath (req_path req) = req_path req) then
    match Router_Match routes req with
    | Some rt =>
        match route_handler rt with
        | Some handler => handler rw (requestWithRoute req (route_conf rt)) w
        | None => NotFound rw (requestWithRoute req (route_conf rt)) w
        end
    | None => NotFound rw req w
    end
  else
    (Returned,
     WriteHeader StatusMovedPermanently
       (Header_Set "Location" (cleanPath (req_path req)) rw),
     w).

(** ** The values of the interface [http.Handler] *)

Inductive http_Handler : Type :=
| HandlerFunc (f : ServeFn)               (* user code, http.HandlerFunc(f) *)
| OkHandler (logger : logrus.FieldLogger)                  (* &OkHandler{} *)
| Timer (handler : http_Handler) (logger : logrus.FieldLogger) (* &Timer{} *)
| recoveryHandler (handler : http_Handler) (logger : logrus.FieldLogger)
    (printStack : bool)
| Router (routes : list (Route http_Handler)).             (* *mux.Router *)

(** Dynamic dispatch of [handler.ServeHTTP(rw, r)]. *)
Fixpoint ServeHTTP (handler : http_Handler) {struct handler} : ServeFn :=
  match handler with
  | HandlerFunc f => f
  | OkHandler logger => OkHandler_ServeHTTP logger
  | Timer inner logger => Timer_ServeHTTP (ServeHTTP inner) logger
  | recoveryHandler inner logger printStack =>
      recoveryHandler_ServeHTTP (ServeHTTP inner) logger printStack
  | Router routes =>
      Router_ServeHTTP
        (map (fun rt =>
                mkRoute
                  (match route_handler rt with
                   | Some h => Some (ServeHTTP h)
                   | None => None
                   end)
                  (route_conf rt))
             routes)
  end.

(** ** context and the server's shutdown *)

(** The [context.Context] the coordinator waits on: the time at which its
    [Done] channel is closed, [None] when it never is. *)
Record context_Context : Type := mkContext
  { done_at : option Z }.

(** [exitcontext.New()]: done when the process receives an interrupt or
    terminate signal, at [signal_at] if it ever does. *)
Definition exitcontext_New (signal_at : option Z) : context_Context :=
  {| done_at := signal_at |}.

(** The context made by [context.WithTimeout]: done at its deadline. *)
Record timerCtx : Type := mkTimerCtx
  { deadline : Z }.

(** [context.WithTimeout(context.Background(), timeout)] *)
Definition WithTimeout (timeout : Z) (w : World) : timerCtx :=
  {| deadline := now w + timeout |}.

(** [<-c.Done()] on a timeout context: returns at the deadline, at once when
    it has passed. *)
Definition wait_Done (c : timerCtx) (w : World) : World :=
  set_now (Z.max (now w) (deadline c)) w.

(** What the surroundings contribute to a shutdown: how long the requests
    in flight still need when [Shutdown] is called ([None]: they never
    finish), and the error of closing the listeners. *)
Record Env : Type := mkEnv
  { drain : option Z;
    close_err : option Err }.

(** [server.Shutdown(ctx)] of net/http: closes the listeners, then waits for
    the connections to become idle.  When they are idle at once, or become
    idle before the context is done, it returns the error of closing the
    listeners; when the context is done first it returns the context's error
    and leaves the remaining connections open. *)
Definition Server_Shutdown (env : Env) (c : timerCtx) (w : World)
    : option Err * World :=
  match drain env with
  | Some t =>
      if ((t <=? 0) || (now w + t <? deadline c))%Z
      then (close_err env, set_now (now w + Z.max 0 t) w)
      else (Some DeadlineExceeded, wait_Done c w)
  | None => (Some DeadlineExceeded, wait_Done c w)
  end.

Definition Second : Z := 1000000000.

(** ** The coordinator file *)

Record http_Server : Type := mkServer
  { Addr : string;
    Server_Handler : option http_Handler }.

Record Handler : Type := mkHandler
  { ctx : context_Context;
    gracefulShutdownDuration : Z;
    logger : logrus.FieldLogger;
    okHandler : http_Handler;
    router : list (Route http_Handler);
    server : http_Server;
    metricsListen : string }.

Definition NewOkHandler (logger : logrus.FieldLogger) : http_Handler :=
  OkHandler logger.

Definition NewTimer (logger : logrus.FieldLogger) (handler : http_Handler)
    : http_Handler :=
  Timer handler logger.

Definition NewHandlerWithContext (ctx : context_Context)
    (logger : logrus.FieldLogger) (listen metricsListen : string) : Handler :=
  {| ctx := ctx;
     gracefulShutdownDuration := 2 * Second;
     logger := logger;
     okHandler := NewOkHandler logger;
     router := [];
     server := {| Addr := listen; Server_Handler := None |};
     metricsListen := metricsListen |}.

Definition NewHandler (signal_at : option Z) (logger : logrus.FieldLogger)
    (listen metricsListen : string) : Handler :=
  NewHandlerWithContext (exitcontext_New signal_at) logger listen metricsListen.

Definition set_router (routes : list (Route http_Handler)) (h : Handler)
    : Handler :=
  {| ctx := ctx h;
     gracefulShutdownDuration := gracefulShutdownDuration h;
     logger := logger h;
     okHandler := okHandler h;
     router := routes;
     server := server h;
     metricsListen := metricsListen h |}.

Definition set_server_Handler (handler : http_Handler) (h : Handler)
    : Handler :=
  {| ctx := ctx h;
     gracefulShutdownDuration := gracefulShutdownDuration h;
     logger := logger h;
     okHandler := okHandler h;
     router := router h;
     server := {| Addr := Addr (server h); Server_Handler := Some handler |};
     metricsListen := metricsListen h |}.

Definition SetGracefulShutdownDuration (duration : Z) (h : Handler) : Handler :=
  {| ctx := ctx h;
     gracefulShutdownDuration := duration;
     logger := logger h;
     okHandler := okHandler h;
     router := router h;
     server := server h;
     metricsListen := metricsListen h |}.

(** The registrations return the coordinator with its router updated and the
    [*mux.Route] of the router. *)
Definition Handle (path : string) (handler : http_Handler) (h : Handler)
    : Handler * nat :=
  let '(routes, route) :=
    Router_Handle path (NewTimer (logger h) handler) (router h) in
  (set_router routes h, route).

Definition HandlePrefix (prefix : string) (handler : http_Handler) (h : Handler)
    : Handler * nat :=
  let '(routes, route) := Router_PathPrefix prefix (router h) in
  (set_router (Route_Handler (NewTimer (logger h) handler) route routes) h,
   route).

Definition HandleFunc (path : string) (f : ServeFn) (h : Handler)
    : Handler * nat :=
  Handle path (HandlerFunc f) h.

Definition HandleFuncPrefix (prefix : string) (f : ServeFn) (h : Handler)
    : Handler * nat :=
  HandlePrefix prefix (HandlerFunc f) h.

Definition AddOkHandler (path : string) (h : Handler) : Handler :=
  set_router (fst (Router_Handle path (okHandler h) (router h))) h.

Definition registerDefaultRoutes (h : Handler) : Handler :=
  let h1 := set_router (fst (Router_Handle "/_healthz" (okHandler h) (router h))) h in
  let h2 := set_router (fst (Router_Handle "/_health" (okHandler h1) (router h1))) h1 in
  set_router (fst (Router_Handle "/up" (okHandler h2) (router h2))) h2.

Definition wrapHandlers (h : Handler) (logger : logrus.FieldLogger)
    (handler : http_Handler) : http_Handler :=
  recoveryHandler handler logger true.

(** The two goroutines [Serve] starts.  Each is its body as a function of
    what [ListenAndServe] returns to it; [ProcessExits] is the [os.Exit] of
    [logger.Fatalf]. *)
Inductive Goroutine : Type :=
| metricsListener (addr : string)     (* &http.Server{Addr: h.metricsListen} *)
| serverListener (srv : http_Server). (* h.server *)

Inductive GoroutineEnd : Type :=
| GoroutineEnds (w : World)
| ProcessExits (w : World).

Definition metrics_goroutine (h : Handler) (err : option Err) (w : World)
    : GoroutineEnd :=
  match err with
  | Some e =>
      ProcessExits
        (Fatalf (logger h)
           ("failed to listen on metrics port " +:+ Addr (server h) +:+ ": "
              +:+ Error e) w)
  | None => GoroutineEnds w
  end.

Definition server_goroutine (h : Handler) (err : option Err) (w : World)
    : GoroutineEnd :=
  match err with
  | Some e =>
      if decide (e = ErrServerClosed) then GoroutineEnds w
      else
        ProcessExits
          (Fatalf (logger h)
             ("failed to listen on " +:+ Addr (server h) +:+ ": " +:+ Error e) w)
  | None => GoroutineEnds w
  end.

Inductive ServeOutcome : Type :=
| ServeReturns                    (* Serve returned to its caller *)
| ServeExits                      (* logger.Fatalf ended the process *)
| ServeWaits.                     (* the context is never done *)

Record ServeResult : Type := mkServeResult
  { serve_outcome : ServeOutcome;
    serve_handler : Handler;                 (* the coordinator afterwards *)
    serve_world : World;
    serve_goroutines : list Goroutine;       (* the goroutines started *)
    serve_shutdownCtx : option timerCtx }.   (* the context of the shutdown *)

(** [Serve], as its own goroutine runs it. *)
Definition Serve (env : Env) (h : Handler) (w : World) : ServeResult :=
  let h := registerDefaultRoutes h in
  let h := set_server_Handler (wrapHandlers h (logger h) (Router (router h))) h in
  let w := Infof (logger h) ("Listening on " +:+ Addr (server h)) w in
  let gs := [metricsListener (metricsListen h); serverListener (server h)] in
  (* wait for signals *)
  match done_at (ctx h) with
  | None => mkServeResult ServeWaits h w gs None
  | Some t =>
      let w := set_now (Z.max (now w) t) w in
      let w := Infof (logger h) "Shutting down ..." w in
      let shutdownCtx := WithTimeout (gracefulShutdownDuration h) w in
      match Server_Shutdown env shutdownCtx w with
      | (Some e, w) =>
          mkServeResult ServeExits h
            (Fatalf (logger h)
               ("failed to shutdown http server: " +:+ Error e) w)
            gs (Some shutdownCtx)
      | (None, w) =>
          let w := wait_Done shutdownCtx w in
          mkServeResult ServeReturns h w gs (Some shutdownCtx)
      end
  end.

End WithMux.

(** ** A router for literal templates

    An instance of [MuxSem] for templates without variables and URL paths
    that are already clean: a path template has to start with a slash, an
    exact template accepts its own text, a prefix template every path that
    starts with it.  The examples below run on it. *)

Definition starts_with_slash (tpl : string) : bool :=
  match tpl with
  | String c _ => if decide (c = Ascii.ascii_of_nat 47) then true else false
  | EmptyString => true
  end.

Definition literal_paths : MuxSem :=
  {| newRouteRegexp := fun _ tpl =>
       if starts_with_slash tpl then None
       else Some (ErrOther ("mux: path must start with a slash, got " +:+ tpl));
     regexp_match := fun re path =>
       match regexp_type re with
       | regexpTypePath => if decide (template re = path) then true else false
       | regexpTypePrefix => String.prefix (template re) path
       end;
     cleanPath := fun path => path |}.

(** The label [Timer.ServeHTTP] uses for a request that carries a route. *)
Definition route_label (route : RouteConf) : string :=
  match route_err route, route_regexp_path route with
  | None, Some re => template re
  | _, _ => ""
  end.

(** Whether requests are still in flight when a grace period of [timeout]
    ends: they never finish, or need at least that long. *)
Definition in_flight_at_deadline (env : Env) (timeout : Z) : bool :=
  match drain env with
  | None => true
  | Some t => ((0 <? t) && (timeout <=? t))%Z
  end.

(** The world in which [Serve] calls [Shutdown], when the context is done at
    [t]. *)
Definition shutdown_world (h : Handler) (w : World) (t : Z) : World :=
  Infof (logger h) "Shutting down ..."
    (set_now (Z.max (now w) t)
       (Infof (logger h) ("Listening on " +:+ Addr (server h)) w)).

(** The coordinator and the surroundings of the examples: the context is
    done at time 5; [stuck] never finishes its requests, [idle] has none. *)
Definition stuck : Env := {| drain := None; close_err := None |}.
Definition idle : Env := {| drain := Some 0; close_err := None |}.
Definition coordinator : Handler :=
  NewHandlerWithContext (mkContext (Some 5)) "http" ":8080" ":9090".

(** Two user functions for the examples: [hello] takes 7ns and writes a
    greeting, [boom] panics at once. *)
Definition hello : ServeFn :=
  fun rw _ w => (Returned, snd (Write "Hello" rw), set_now (now w + 7) w).
Definition boom : ServeFn :=
  fun rw _ w => (Panicked (UserPanic "boom"), rw, w).

(** A route with the path template [tpl] and no error. *)
Definition path_route (typ : regexpType) (tpl : string) : RouteConf :=
  {| route_err := None; route_regexp_path := Some (mkRouteRegexp tpl typ) |}.

(** [coordinator] after [HandleFunc("/hello", hello)], on the router for
    literal templates. *)
Definition greeter : Handler :=
  fst (@HandleFunc literal_paths "/hello" hello coordinator).

Definition process_exits (e : GoroutineEnd) : bool :=
  match e with
  | ProcessExits _ => true
  | GoroutineEnds _ => false
  end.

(** The route [NewRoute().Path(tpl).Handler(handler)] (or [PathPrefix])
    leaves in the router: without a handler when the template is malformed. *)
Definition registered_route `{MuxSem} {A : Type} (typ : regexpType)
    (tpl : string) (handler : A) : Route A :=
  {| route_handler := match newRouteRegexp typ tpl with
                      | Some _ => None
                      | None => Some handler
                      end;
     route_conf := addRegexpMatcher tpl typ NewRoute_conf |}.

Definition default_paths : list string := ["/_healthz"; "/_health"; "/up"].

(** ** Coordinators built through the API *)

Section Configured.
Context `{MuxSem}.

(** A handler whose [ServeHTTP] never panics. *)
Definition never_panics (hd : http_Handler) : Prop :=
  forall rw r w, fst (fst (ServeHTTP hd rw r w)) = Returned.

(** The coordinators a caller can have before [Serve]: made by the
    constructor, then changed only by the exported methods; [P] holds of
    every handler the caller registered. *)
Inductive configured (P : http_Handler -> Prop) : Handler -> Prop :=
| configured_New c lg listen metrics :
    configured P (NewHandlerWithContext c lg listen metrics)
| configured_SetGracefulShutdownDuration d h :
    configured P h -> configured P (SetGracefulShutdownDuration d h)
| configured_Handle path hd h :
    P hd -> configured P h -> configured P (fst (Handle path hd h))
| configured_HandlePrefix prefix hd h :
    P hd -> configured P h -> configured P (fst (HandlePrefix prefix hd h))
| configured_HandleFunc path f h :
    P (HandlerFunc f) -> configured P h ->
    configured P (fst (HandleFunc path f h))
| configured_HandleFuncPrefix prefix f h :
    P (HandlerFunc f) -> configured P h ->
    configured P (fst (HandleFuncPrefix prefix f h))
| configured_AddOkHandler path h :
    configured P h -> configured P (AddOkHandler path h).

(** What the coordinator's methods leave in a route: no handler and an
    error, or no error and either the health responder or a [Timer] around a
    registered handler, both with the coordinator's logger. *)
Definition route_ok (P : http_Handler -> Prop) (lg : logrus.FieldLogger)
    (rt : Route http_Handler) : Prop :=
  match route_handler rt with
  | None => route_err (route_conf rt) <> None
  | Some hd =>
      route_err (route_conf rt) = None
      /\ (hd = OkHandler lg \/ exists user, hd = Timer user lg /\ P user)
  end.

(** [Handle] or [HandlePrefix], by the kind of matcher. *)
Definition register (typ : regexpType) (path : string) (hd : http_Handler)
    (h : Handler) : Handler * nat :=
  match typ with
  | regexpTypePath => Handle path hd h
  | regexpTypePrefix => HandlePrefix path hd h
  end.

(** What the router answers by itself to a request it has no handler for. *)
Definition router_answer (rw : ResponseWriter) (req : Request)
    : ResponseWriter :=
  if decide (cleanPath (req_path req) = req_path req)
  then http_Error rw "404 page not found" StatusNotFound
  else WriteHeader StatusMovedPermanently
         (Header_Set "Location" (cleanPath (req_path req)) rw).

End Configured.

(** [coordinator] with [boom] at /boom and a prefix route for /static/. *)
Definition bomber : Handler :=
  fst (@HandleFunc literal_paths "/boom" boom coordinator).
Definition static_site : Handler :=
  fst (@HandleFuncPrefix literal_paths "/static/" hello coordinator).

(** ** net/http: what the client is sent *)

(** The answer on the wire. *)
Record Response : Type := mkResponse
  { resp_status : Z;
    resp_body : string }.

(** What net/http sends once the handler has returned: the status the
    handler set, 200 if it set none, and the body it wrote, except that the
    answer to a HEAD request goes out without a body (the server accepts and
    drops what the handler writes). *)
Definition sent_response (req : Request) (rw : ResponseWriter) : Response :=
  {| resp_status := default StatusOK (rw_status rw);
     resp_body := if decide (req_method req = "HEAD") then ""
                  else rw_body rw |}.

(** ** net/http: the listeners, and the process as a whole *)

(** What the surroundings do to the two listening servers: when binding or
    accepting fails and with which text ([None]: never). *)
Record Listeners : Type := mkListeners
  { metrics_fails : option (Z * string);
    server_fails : option (Z * string) }.

(** [srv.ListenAndServe()] started at [started]: when it returns and what
    ([None]: it keeps serving).  It returns the error of binding or
    accepting, which is an error of package net and never the closed server,
    or, once [Shutdown] has been called on this server, at [shutdown_at],
    [http.ErrServerClosed]. *)
Definition ListenAndServe (started : Z) (fails : option (Z * string))
    (shutdown_at : option Z) : option (Z * Err) :=
  match fails, shutdown_at with
  | Some (t, msg), Some s =>
      if (Z.max started t <? s)%Z then Some (Z.max started t, ErrOther msg)
      else Some (s, ErrServerClosed)
  | Some (t, msg), None => Some (Z.max started t, ErrOther msg)
  | None, Some s => Some (s, ErrServerClosed)
  | None, None => None
  end.

Section TheProcess.
Context `{MuxSem}.

(** When [Serve] calls [h.server.Shutdown]: as soon as the context is
    done. *)
Definition shutdown_time (h : Handler) (w : World) : option Z :=
  match done_at (ctx h) with
  | Some t => Some (Z.max (now w) t)
  | None => None
  end.

(** What [ListenAndServe] returns in a goroutine [Serve] started.  The
    server of the metrics goroutine is local to it and nobody shuts it down;
    the primary server is the one [Serve] shuts down. *)
Definition listener_returns (ls : Listeners) (h : Handler) (w : World)
    (g : Goroutine) : option (Z * Err) :=
  match g with
  | metricsListener _ => ListenAndServe (now w) (metrics_fails ls) None
  | serverListener _ =>
      ListenAndServe (now w) (server_fails ls) (shutdown_time h w)
  end.

(** The body of a goroutine, by its tag. *)
Definition goroutine_body (h : Handler) (g : Goroutine)
    : option Err -> World -> GoroutineEnd :=
  match g with
  | metricsListener _ => metrics_goroutine h
  | serverListener _ => server_goroutine h
  end.

(** The world at time [t] while [Serve] is still running: it has logged that
    it listens, and the shutdown if the context was done by then. *)
Definition Serve_world_at (h : Handler) (w : World) (t : Z) : World :=
  match done_at (ctx h) with
  | Some td =>
      if (Z.max (now w) td <=? t)%Z then set_now t (shutdown_world h w td)
      else set_now t
             (Infof (logger h) ("Listening on " +:+ Addr (server h)) w)
  | None =>
      set_now t (Infof (logger h) ("Listening on " +:+ Addr (server h)) w)
  end.

(** When a goroutine ends the process, and the world it leaves: its body
    runs on what [ListenAndServe] returned to it. *)
Definition listener_exit (ls : Listeners) (h : Handler) (w : World)
    (g : Goroutine) : option (Z * World) :=
  match listener_returns ls h w g with
  | Some (t, e) =>
      match goroutine_body h g (Some e) (Serve_world_at h w t) with
      | ProcessExits w' => Some (t, w')
      | GoroutineEnds _ => None
      end
  | None => None
  end.

(** The earlier of two exits; the first one at equal times. *)
Definition earlier (a b : option (Goroutine * (Z * World)))
    : option (Goroutine * (Z * World)) :=
  match a, b with
  | Some (_, (t1, _)), Some (_, (t2, _)) => if (t2 <? t1)%Z then b else a
  | Some _, None => a
  | None, _ => b
  end.

Inductive ProcessEnd : Type :=
| ListenerExits (g : Goroutine) (w : World)  (* Fatalf in that goroutine *)
| ServeEnds (r : ServeResult).               (* the run of Serve itself *)

(** The process that calls [Serve]: the goroutine of [Serve] and the
    goroutines it started run side by side, and the first [Fatalf] in any of
    them ends them all.  A listener ends the process when its exit comes
    strictly before [Serve] has ended. *)
Definition Process (ls : Listeners) (env : Env) (h : Handler) (w : World)
    : ProcessEnd :=
  let r := Serve env h w in
  let exits :=
    map (fun g => match listener_exit ls h w g with
                  | Some tw => Some (g, tw)
                  | None => None
                  end)
        (serve_goroutines r) in
  match fold_right earlier None exits with
  | Some (g, (t, w')) =>
      match serve_outcome r with
      | ServeWaits => ListenerExits g w'
      | _ => if (now (serve_world r) <=? t)%Z then ServeEnds r
             else ListenerExits g w'
      end
  | None => ServeEnds r
  end.

(** One connection of the server: the handler runs on a fresh response, and
    the client is sent the answer; a panic that reaches the server closes the
    connection without one. *)
Definition conn_serve (handler : http_Handler) (req : Request) (w : World)
    : option Response * World :=
  match ServeHTTP handler (fresh_rw None) req w with
  | (Returned, rw, w') => (Some (sent_response req rw), w')
  | (Panicked _, _, w') => (None, w')
  end.

(** The text of the fatal entry of a listener goroutine. *)
Definition listen_failure_text (h : Handler) (g : Goroutine) (e : Err)
    : string :=
  match g with
  | metricsListener _ =>
      "failed to listen on metrics port " +:+ Addr (server h) +:+ ": "
        +:+ Error e
  | serverListener _ =>
      "failed to listen on " +:+ Addr (server h) +:+ ": " +:+ Error e
  end.

End TheProcess.

(** Listeners that come up and stay up, and a primary port that is taken. *)
Definition listeners_up : Listeners :=
  {| metrics_fails := None; server_fails := None |}.
Definition port_taken : Listeners :=
  {| metrics_fails := None;
     server_fails :=
       Some (0, "listen tcp :8080: bind: address already in use") |}.

(** A coordinator whose context is never done. *)
Definition waiting : Handler :=
  NewHandlerWithContext (mkContext None) "http" ":8080" ":9090".

(** * Properties *)

(** ** The model of the router *)

Section MuxFacts.
Context `{MuxSem}.

Lemma addRegexpMatcher_new (tpl : string) (typ : regexpType) :
  addRegexpMatcher tpl typ NewRoute_conf =
  match newRouteRegexp typ tpl with
  | Some e => {| route_err := Some e; route_regexp_path := None |}
  | None => {| route_err := None;
               route_regexp_path := Some (mkRouteRegexp tpl typ) |}
  end.
Proof. unfold addRegexpMatcher; simpl. now destruct (newRouteRegexp typ tpl). Qed.

Lemma alter_new_route {A : Type} (f : Route A -> Route A)
    (routes : list (Route A)) (rt : Route A) :
  alter f (length routes) (routes ++ [rt])%list = (routes ++ [f rt])%list.
Proof.
  induction routes as [|r routes IH]; simpl; [reflexivity|].
  f_equal. exact IH.
Qed.

Lemma Router_Handle_spec {A : Type} (path : string) (handler : A)
    (routes : list (Route A)) :
  Router_Handle path handler routes =
  ((routes ++ [registered_route regexpTypePath path handler])%list,
   length routes).
Proof.
  unfold Router_Handle, Router_NewRoute, Route_Handler, Route_Path.
  rewrite !alter_new_route. simpl. unfold registered_route.
  rewrite addRegexpMatcher_new.
  now destruct (newRouteRegexp regexpTypePath path).
Qed.

Lemma Router_PathPrefix_Handler_spec {A : Type} (tpl : string) (handler : A)
    (routes : list (Route A)) :
  Route_Handler handler (snd (Router_PathPrefix tpl routes))
    (fst (Router_PathPrefix tpl routes)) =
  (routes ++ [registered_route regexpTypePrefix tpl handler])%list
  /\ snd (Router_PathPrefix tpl routes) = length routes.
Proof.
  unfold Router_PathPrefix, Router_NewRoute, Route_Handler, Route_PathPrefix.
  simpl. rewrite !alter_new_route. simpl. unfold registered_route.
  rewrite addRegexpMatcher_new.
  now destruct (newRouteRegexp regexpTypePrefix tpl).
Qed.

(** The router's search does not depend on what the handlers are. *)
Lemma Router_Match_map {A B : Type} (f : option A -> option B)
    (routes : list (Route A)) (req : Request) :
  Router_Match
    (map (fun rt => mkRoute (f (route_handler rt)) (route_conf rt)) routes) req =
  option_map (fun rt => mkRoute (f (route_handler rt)) (route_conf rt))
    (Router_Match routes req).
Proof.
  unfold Router_Match.
  induction routes as [|rt routes IH]; simpl; [reflexivity|].
  unfold Route_Match at 1 3. simpl.
  destruct (route_err (route_conf rt)); [exact IH|].
  destruct (route_regexp_path (route_conf rt)) as [re|]; [|reflexivity].
  destruct (regexp_match re (req_path req)); [reflexivity|exact IH].
Qed.

Lemma Router_Match_matches {A : Type} (routes : list (Route A))
    (req : Request) (rt : Route A) :
  Router_Match routes req = Some rt ->
  In rt routes /\ Route_Match rt req = true.
Proof. unfold Router_Match. intros Hf. now apply find_some in Hf. Qed.

Lemma Route_Match_no_err {A : Type} (rt : Route A) (req : Request) :
  Route_Match rt req = true -> route_err (route_conf rt) = None.
Proof. unfold Route_Match. now destruct (route_err (route_conf rt)). Qed.

(** The label of a request the router matched is the template of the
    matched route, not the path of the request. *)
Lemma matched_route_label {A : Type} (routes : list (Route A))
    (req : Request) (rt : Route A) (re : routeRegexp) :
  Router_Match routes req = Some rt ->
  route_regexp_path (route_conf rt) = Some re ->
  route_label (route_conf rt) = template re.
Proof.
  intros Hm Hre. apply Router_Match_matches in Hm as [_ Hm].
  apply Route_Match_no_err in Hm. unfold route_label. now rewrite Hm, Hre.
Qed.

End MuxFacts.

(** ** The histogram *)

Lemma observations_WithLabelValues (lv path : string)
    (m : gmap string (list Z)) :
  observations lv (WithLabelValues path m) = observations lv m.
Proof.
  unfold observations, WithLabelValues.
  destruct (m !! path) as [l|] eqn:Hp; [reflexivity|].
  destruct (decide (path = lv)) as [->|Hne].
  - now rewrite lookup_insert_eq, Hp.
  - now rewrite lookup_insert_ne.
Qed.

Lemma observations_Observe (lv path : string) (d : Z)
    (m : gmap string (list Z)) :
  observations lv (Observe path d m) =
  if decide (path = lv) then (observations lv m ++ [d])%list
  else observations lv m.
Proof.
  unfold observations, Observe.
  destruct (decide (path = lv)) as [->|Hne].
  - now rewrite lookup_insert_eq.
  - now rewrite lookup_insert_ne.
Qed.

Lemma GetPathTemplate_route (route : RouteConf) :
  exists err, GetPathTemplate (Some route) = inr (route_label route, err).
Proof.
  unfold GetPathTemplate, route_label.
  destruct (route_err route); [eauto|].
  destruct (route_regexp_path route); eauto.
Qed.

(** ** The health responder *)

(** C6: for every request the health responder returns normally; it sends the
    status 200 unless a status was sent before; when the write succeeds the
    body grows by the text ok and nothing is logged; when the write fails the
    only effect is one log entry at debug level.  On the fresh response of an
    inbound request the answer is exactly status 200 with body ok. *)
Theorem OkHandler_writes_ok (logger : logrus.FieldLogger) (r : Request)
    (rw : ResponseWriter) (w : World) :
  (let '(outcome, rw', w') := OkHandler_ServeHTTP logger rw r w in
   outcome = Returned /\
   rw_status rw' = Some (default StatusOK (rw_status rw)) /\
   now w' = now w /\ httpDuration w' = httpDuration w /\
   match rw_conn_err rw with
   | None => rw_body rw' = rw_body rw +:+ "ok" /\ log w' = log w
   | Some e =>
       rw_body rw' = rw_body rw /\
       log w' = (log w ++ [logrus.mkEntry logger logrus.DebugLevel
                             ("failed to write ok response: " +:+ Error e)])%list
   end)
  /\ OkHandler_ServeHTTP logger (fresh_rw None) r w =
     (Returned,
      {| rw_status := Some 200; rw_header := []; rw_body := "ok";
         rw_conn_err := None |},
      w).
Proof.
  split; [|reflexivity].
  unfold OkHandler_ServeHTTP, Fprintf, Write, WriteHeader.
  destruct rw as [st hd body conn]; simpl.
  destruct st as [s|], conn as [e|]; simpl; repeat split; reflexivity.
Qed.

(** ** Registration *)

(** C7: [Handle], [HandlePrefix], [HandleFunc] and [HandleFuncPrefix] give
    the router the handler wrapped in a [Timer] that carries the
    coordinator's logger, and return the router's new route; [AddOkHandler]
    gives the router the coordinator's own [okHandler], which is the
    [OkHandler] made at construction and is not wrapped. *)
Theorem registrations_wrap_with_Timer `{MuxSem} (path : string)
    (handler : http_Handler) (f : ServeFn) (h : Handler) :
  Handle path handler h =
    (set_router
       (router h ++
        [registered_route regexpTypePath path (Timer handler (logger h))]) h,
     length (router h))
  /\ HandlePrefix path handler h =
    (set_router
       (router h ++
        [registered_route regexpTypePrefix path (Timer handler (logger h))]) h,
     length (router h))
  /\ HandleFunc path f h =
    (set_router
       (router h ++
        [registered_route regexpTypePath path
           (Timer (HandlerFunc f) (logger h))]) h,
     length (router h))
  /\ HandleFuncPrefix path f h =
    (set_router
       (router h ++
        [registered_route regexpTypePrefix path
           (Timer (HandlerFunc f) (logger h))]) h,
     length (router h))
  /\ router (fst (Handle path handler h)) !! snd (Handle path handler h) =
     Some (registered_route regexpTypePath path (Timer handler (logger h)))
  /\ router (fst (HandlePrefix path handler h)) !!
       snd (HandlePrefix path handler h) =
     Some (registered_route regexpTypePrefix path (Timer handler (logger h)))
  /\ AddOkHandler path h =
     set_router
       (router h ++ [registered_route regexpTypePath path (okHandler h)]) h
  /\ okHandler (AddOkHandler path h) = okHandler h
  /\ (forall c lg listen metrics,
        okHandler (NewHandlerWithContext c lg listen metrics) = OkHandler lg).
Proof.
  assert (HH : forall hd,
    Handle path hd h =
    (set_router
       (router h ++ [registered_route regexpTypePath path (Timer hd (logger h))]) h,
     length (router h))).
  { intros hd. unfold Handle, NewTimer. now rewrite Router_Handle_spec. }
  assert (HP : forall hd,
    HandlePrefix path hd h =
    (set_router
       (router h ++
        [registered_route regexpTypePrefix path (Timer hd (logger h))]) h,
     length (router h))).
  { intros hd. unfold HandlePrefix, NewTimer.
    destruct (Router_PathPrefix_Handler_spec path (Timer hd (logger h))
                (router h)) as [Hr Hi].
    destruct (Router_PathPrefix path (router h)) as [routes route].
    simpl in Hr, Hi. now rewrite Hr, Hi. }
  repeat split.
  - apply HH.
  - apply HP.
  - unfold HandleFunc. apply HH.
  - unfold HandleFuncPrefix. apply HP.
  - rewrite HH. simpl. now rewrite lookup_app_r, Nat.sub_diag by lia.
  - rewrite HP. simpl. now rewrite lookup_app_r, Nat.sub_diag by lia.
  - unfold AddOkHandler. now rewrite Router_Handle_spec.
Qed.

(** ** The latency recorder and the matched route *)

(** A request that carries a route never makes the recorder fail by itself:
    whatever the route (with an error, without a path), the recorder labels
    the request with [route_label], the empty string when no template is
    resolvable, and ends the way its delegate ends. *)
Lemma Timer_ServeHTTP_with_route (handler : ServeFn)
    (logger : logrus.FieldLogger) (rw : ResponseWriter) (r : Request)
    (w : World) (route : RouteConf) :
  CurrentRoute r = Some route ->
  Timer_ServeHTTP handler logger rw r w =
  let w1 :=
    set_httpDuration (WithLabelValues (route_label route) (httpDuration w)) w in
  match handler rw r w1 with
  | (Panicked v, rw', w') => (Panicked v, rw', w')
  | (Returned, rw', w') =>
      (Returned, rw',
       set_httpDuration
         (Observe (route_label route) (now w' - now w) (httpDuration w')) w')
  end.
Proof.
  intros Hr. unfold Timer_ServeHTTP. rewrite Hr.
  destruct (GetPathTemplate_route route) as [err ->]. reflexivity.
Qed.

(** When the delegate returns and leaves the histogram alone, the request
    adds exactly one observation, the time the delegate took, under the label
    of its route, and none under any other label. *)
Lemma Timer_observes_once (handler : ServeFn) (logger : logrus.FieldLogger)
    (rw rw' : ResponseWriter) (r : Request) (w w' : World)
    (route : RouteConf) :
  CurrentRoute r = Some route ->
  handler rw r
    (set_httpDuration (WithLabelValues (route_label route) (httpDuration w)) w)
  = (Returned, rw', w') ->
  httpDuration w' = WithLabelValues (route_label route) (httpDuration w) ->
  exists w'',
    Timer_ServeHTTP handler logger rw r w = (Returned, rw', w'')
    /\ forall lv,
         observations lv (httpDuration w'') =
         if decide (route_label route = lv)
         then (observations lv (httpDuration w) ++ [now w' - now w])%list
         else observations lv (httpDuration w).
Proof.
  intros Hroute Hrun Hh.
  rewrite (Timer_ServeHTTP_with_route _ logger rw r w route Hroute).
  cbv zeta. rewrite Hrun. eexists. split; [reflexivity|].
  intros lv. cbn [httpDuration set_httpDuration].
  rewrite observations_Observe, Hh, observations_WithLabelValues.
  reflexivity.
Qed.

(** Without a route in the request's context the recorder panics before it
    calls its delegate. *)
Lemma Timer_ServeHTTP_no_route (handler : ServeFn)
    (logger : logrus.FieldLogger) (rw : ResponseWriter) (r : Request)
    (w : World) :
  CurrentRoute r = None ->
  Timer_ServeHTTP handler logger rw r w = (Panicked NilPointerDereference, rw, w).
Proof. intros Hr. unfold Timer_ServeHTTP. now rewrite Hr. Qed.

(** C1: a [Timer] around the health responder, called with a request whose
    context carries no matched route: [route.GetPathTemplate()] runs on a nil
    route, the call panics with a nil pointer dereference, the delegate is
    never called (nothing is written) and no label is made. *)
Theorem Timer_without_route_panics :
  @ServeHTTP literal_paths (NewTimer "http" (OkHandler "http"))
    (fresh_rw None) (mkRequest "GET" "/" None) initial_world =
  (Panicked NilPointerDereference, fresh_rw None, initial_world).
Proof. reflexivity. Qed.

(** ** The listeners *)

(** The goroutines [Serve] starts, and what their bodies do with an error:
    one other than the closed server is fatal in both; the closed server is
    let through by the body of the primary server only. *)
Lemma listener_goroutine_bodies `{MuxSem} (env : Env) (h : Handler)
    (e : Err) (w0 w : World) (He : e <> ErrServerClosed) :
  serve_goroutines (Serve env h w0) =
    [metricsListener (metricsListen h);
     serverListener (server (serve_handler (Serve env h w0)))]
  /\ metrics_goroutine h (Some e) w =
     ProcessExits
       (Fatalf (logger h)
          ("failed to listen on metrics port " +:+ Addr (server h) +:+ ": "
             +:+ Error e) w)
  /\ server_goroutine h (Some e) w =
     ProcessExits
       (Fatalf (logger h)
          ("failed to listen on " +:+ Addr (server h) +:+ ": " +:+ Error e) w)
  /\ server_goroutine h (Some ErrServerClosed) w = GoroutineEnds w.
Proof.
  split.
  { unfold Serve. destruct (done_at (ctx _)) as [t|]; [|reflexivity].
    now destruct (Server_Shutdown _ _ _) as [[e'|] w3]. }
  repeat split; try reflexivity.
  unfold server_goroutine.
  destruct (decide (e = ErrServerClosed)); [contradiction|reflexivity].
Qed.

(** ** Shutdown *)

Lemma Server_Shutdown_error (env : Env) (timeout : Z) (w : World) :
  fst (Server_Shutdown env (WithTimeout timeout w) w) =
  if in_flight_at_deadline env timeout then Some DeadlineExceeded
  else close_err env.
Proof.
  unfold Server_Shutdown, in_flight_at_deadline, WithTimeout. simpl.
  destruct (drain env) as [t|]; [|reflexivity].
  destruct (Z.leb_spec t 0), (Z.ltb_spec (now w + t) (now w + timeout)),
    (Z.ltb_spec 0 t), (Z.leb_spec timeout t); simpl; try reflexivity; lia.
Qed.

Lemma Server_Shutdown_now (env : Env) (timeout : Z) (w : World) :
  now (snd (Server_Shutdown env (WithTimeout timeout w) w)) =
  if in_flight_at_deadline env timeout then now w + Z.max 0 timeout
  else now w + Z.max 0 (default 0 (drain env)).
Proof.
  unfold Server_Shutdown, in_flight_at_deadline, WithTimeout, wait_Done.
  simpl.
  destruct (drain env) as [t|]; simpl; [|lia].
  destruct (Z.leb_spec t 0), (Z.ltb_spec (now w + t) (now w + timeout)),
    (Z.ltb_spec 0 t), (Z.leb_spec timeout t); simpl; lia.
Qed.

Section ServeFacts.
Context `{MuxSem}.

Lemma Serve_done (env : Env) (h : Handler) (w : World) (t : Z) :
  done_at (ctx h) = Some t ->
  let w2 := shutdown_world h w t in
  let c := WithTimeout (gracefulShutdownDuration h) w2 in
  serve_shutdownCtx (Serve env h w) = Some c
  /\ serve_outcome (Serve env h w) =
     match fst (Server_Shutdown env c w2) with
     | Some _ => ServeExits
     | None => ServeReturns
     end
  /\ serve_world (Serve env h w) =
     match Server_Shutdown env c w2 with
     | (Some e, w3) =>
         Fatalf (logger h) ("failed to shutdown http server: " +:+ Error e) w3
     | (None, w3) => wait_Done c w3
     end.
Proof.
  intros Hdone. unfold Serve, shutdown_world. simpl. rewrite Hdone.
  destruct (Server_Shutdown env _ _) as [[e|] w3]; simpl; auto.
Qed.

Lemma Serve_outcome (env : Env) (h : Handler) (w : World) (t : Z) :
  done_at (ctx h) = Some t ->
  serve_outcome (Serve env h w) =
  if in_flight_at_deadline env (gracefulShutdownDuration h) then ServeExits
  else match close_err env with
       | Some _ => ServeExits
       | None => ServeReturns
       end.
Proof.
  intros Hdone.
  destruct (Serve_done env h w t Hdone) as (_ & Ho & _).
  rewrite Ho, Server_Shutdown_error.
  now destruct (in_flight_at_deadline env (gracefulShutdownDuration h)).
Qed.

End ServeFacts.

(** C3, as the code has it: [Serve] ends the process exactly when the
    shutdown call returns an error, and returns otherwise.  Requests still in
    flight at the grace deadline make the shutdown call return the deadline
    error of its context, so the process ends through [Fatalf] at the
    deadline and [Serve] does not return. *)
Theorem shutdown_error_is_fatal `{MuxSem} (env : Env) (h : Handler)
    (w : World) (t : Z) (Hdone : done_at (ctx h) = Some t) :
  let r := Serve env h w in
  let d := gracefulShutdownDuration h in
  let w2 := shutdown_world h w t in
  serve_outcome r =
    match fst (Server_Shutdown env (WithTimeout d w2) w2) with
    | Some _ => ServeExits
    | None => ServeReturns
    end
  /\ serve_outcome r =
     (if in_flight_at_deadline env d then ServeExits
      else match close_err env with
           | Some _ => ServeExits
           | None => ServeReturns
           end)
  /\ (in_flight_at_deadline env d = true ->
      fst (Server_Shutdown env (WithTimeout d w2) w2) = Some DeadlineExceeded
      /\ serve_outcome r = ServeExits
      /\ last (log (serve_world r)) =
         Some (logrus.mkEntry (logger h) logrus.FatalLevel
                 "failed to shutdown http server: context deadline exceeded")
      /\ now (serve_world r) = Z.max (now w) t + Z.max 0 d).
Proof.
  intros r d w2.
  destruct (Serve_done env h w t Hdone) as (Hc & Ho & Hw).
  fold w2 d in Hc, Ho, Hw. fold r in Hc, Ho, Hw.
  pose proof (Server_Shutdown_error env d w2) as He.
  pose proof (Server_Shutdown_now env d w2) as Hn.
  split; [exact Ho|]. split.
  - exact (Serve_outcome env h w t Hdone).
  - intros Hin. rewrite Hin in He, Hn.
    split; [exact He|]. split; [now rewrite Ho, He|].
    rewrite Hw.
    destruct (Server_Shutdown env (WithTimeout d w2) w2) as [[e|] w3];
      simpl in He, Hn; [|discriminate].
    injection He as ->. split.
    + simpl. now rewrite last_snoc.
    + simpl. rewrite Hn. reflexivity.
Qed.

Lemma shutdown_error_is_fatal_witness :
  done_at (ctx coordinator) = Some 5
  /\ in_flight_at_deadline stuck (gracefulShutdownDuration coordinator) = true
  /\ serve_outcome (@Serve literal_paths stuck coordinator initial_world)
     = ServeExits.
Proof.
  split; [reflexivity|]. split; [reflexivity|].
  exact (proj1 (proj2 (proj2 (proj2
           (@shutdown_error_is_fatal literal_paths stuck coordinator
              initial_world 5 eq_refl)) eq_refl))).
Defined.

(** C3 as stated fails: with requests that never finish, [Serve] does not
    return when the grace deadline expires; the process exits through
    [Fatalf], two seconds after the context was done. *)
Lemma Serve_exits_at_deadline :
  in_flight_at_deadline stuck (gracefulShutdownDuration coordinator) = true
  /\ serve_outcome (@Serve literal_paths stuck coordinator initial_world)
     = ServeExits
  /\ serve_outcome (@Serve literal_paths stuck coordinator initial_world)
     <> ServeReturns
  /\ now (serve_world (@Serve literal_paths stuck coordinator initial_world))
     = 2000000005
  /\ last (log (serve_world
                  (@Serve literal_paths stuck coordinator initial_world))) =
     Some (logrus.mkEntry "http" logrus.FatalLevel
             "failed to shutdown http server: context deadline exceeded").
Proof. repeat split; try reflexivity. discriminate. Qed.

(** C4: once the context is done, [Serve] does not return before the whole
    grace duration has passed since then; and it does return, exactly then,
    when the server is idle at once and closing the listeners succeeds. *)
Theorem Serve_returns_after_grace `{MuxSem} (env : Env) (h : Handler)
    (w : World) (t : Z) (Hdone : done_at (ctx h) = Some t) :
  let r := Serve env h w in
  let d := gracefulShutdownDuration h in
  (serve_outcome r = ServeReturns -> Z.max (now w) t + d <= now (serve_world r))
  /\ (drain env = Some 0 -> close_err env = None ->
      serve_outcome r = ServeReturns
      /\ now (serve_world r) = Z.max (now w) t + Z.max 0 d).
Proof.
  intros r d.
  destruct (Serve_done env h w t Hdone) as (Hc & Ho & Hw).
  fold d r in Hc, Ho, Hw.
  set (w2 := shutdown_world h w t) in *.
  assert (Hn2 : now w2 = Z.max (now w) t) by reflexivity.
  pose proof (Server_Shutdown_error env d w2) as He.
  pose proof (Server_Shutdown_now env d w2) as Hn.
  destruct (Server_Shutdown env (WithTimeout d w2) w2) as [[e|] w3] eqn:Hs;
    simpl in He, Hn, Ho.
  - split; [rewrite Ho; discriminate|].
    intros Hd Hcl. unfold in_flight_at_deadline in He. rewrite Hd in He.
    simpl in He. congruence.
  - split.
    + intros _. rewrite Hw. unfold wait_Done, WithTimeout. simpl. lia.
    + intros Hd Hcl. split; [exact Ho|].
      rewrite Hw. unfold wait_Done, WithTimeout. simpl.
      unfold in_flight_at_deadline in Hn. rewrite Hd in Hn. simpl in Hn. lia.
Qed.

Lemma Serve_returns_after_grace_witness :
  done_at (ctx coordinator) = Some 5
  /\ serve_outcome (@Serve literal_paths idle coordinator initial_world)
     = ServeReturns
  /\ now (serve_world (@Serve literal_paths idle coordinator initial_world))
     = 2000000005.
Proof.
  split; [reflexivity|].
  exact (proj2 (@Serve_returns_after_grace literal_paths idle coordinator
                  initial_world 5 eq_refl) eq_refl eq_refl).
Defined.

(** C5: a new coordinator has a grace duration of two seconds, and the
    duration given to [SetGracefulShutdownDuration] before [Serve] is the
    timeout of the context [Serve] hands to the shutdown call: its deadline
    is that long after the context is done, and requests in flight are
    waited for exactly up to it. *)
Theorem grace_duration_is_deadline `{MuxSem} (env : Env) (h : Handler)
    (w : World) (t d : Z) (Hdone : done_at (ctx h) = Some t) :
  (forall c lg listen metrics,
     gracefulShutdownDuration (NewHandlerWithContext c lg listen metrics)
     = 2000000000)
  /\ (forall signal_at lg listen metrics,
       gracefulShutdownDuration (NewHandler signal_at lg listen metrics)
       = 2 * Second)
  /\ gracefulShutdownDuration (SetGracefulShutdownDuration d h) = d
  /\ serve_shutdownCtx (Serve env (SetGracefulShutdownDuration d h) w) =
     Some {| deadline := Z.max (now w) t + d |}
  /\ serve_outcome (Serve env (SetGracefulShutdownDuration d h) w) =
     (if in_flight_at_deadline env d then ServeExits
      else match close_err env with
           | Some _ => ServeExits
           | None => ServeReturns
           end)
  /\ serve_shutdownCtx (Serve env h w) =
     Some {| deadline := Z.max (now w) t + gracefulShutdownDuration h |}.
Proof.
  split; [reflexivity|]. split; [reflexivity|]. split; [reflexivity|].
  assert (Hdone' : done_at (ctx (SetGracefulShutdownDuration d h)) = Some t)
    by exact Hdone.
  destruct (Serve_done env _ w t Hdone') as (Hc & _ & _).
  pose proof (Serve_outcome env _ w t Hdone') as Ho.
  destruct (Serve_done env h w t Hdone) as (Hc0 & _ & _).
  split; [exact Hc|]. split; [exact Ho|exact Hc0].
Qed.

Lemma grace_duration_is_deadline_witness :
  done_at (ctx coordinator) = Some 5
  /\ serve_shutdownCtx
       (@Serve literal_paths idle
          (SetGracefulShutdownDuration (10 * Second) coordinator)
          initial_world) =
     Some {| deadline := 10000000005 |}.
Proof.
  split; [reflexivity|].
  exact (proj1 (proj2 (proj2 (proj2
           (@grace_duration_is_deadline literal_paths idle coordinator
              initial_world 5 (10 * Second) eq_refl))))).
Defined.

(** ** Serving a request *)

Section ServingFacts.
Context `{MuxSem}.

Lemma ServeHTTP_Router (routes : list (Route http_Handler)) :
  ServeHTTP (Router routes) =
  Router_ServeHTTP
    (map (fun rt =>
            mkRoute (match route_handler rt with
                     | Some h => Some (ServeHTTP h)
                     | None => None
                     end) (route_conf rt)) routes).
Proof. reflexivity. Qed.

Lemma ServeHTTP_recoveryHandler (inner : http_Handler)
    (lg : logrus.FieldLogger) (printStack : bool) :
  ServeHTTP (recoveryHandler inner lg printStack) =
  recoveryHandler_ServeHTTP (ServeHTTP inner) lg printStack.
Proof. reflexivity. Qed.

(** The router hands a clean request to the handler of the first matching
    route, with the route in the request's context. *)
Lemma Router_dispatch (routes : list (Route http_Handler))
    (rw : ResponseWriter) (req : Request) (w : World)
    (rt : Route http_Handler) (handler : http_Handler) :
  cleanPath (req_path req) = req_path req ->
  Router_Match routes req = Some rt ->
  route_handler rt = Some handler ->
  ServeHTTP (Router routes) rw req w =
  ServeHTTP handler rw (requestWithRoute req (route_conf rt)) w.
Proof.
  intros Hclean Hmatch Hhd.
  rewrite ServeHTTP_Router. unfold Router_ServeHTTP.
  destruct (decide (cleanPath (req_path req) = req_path req)); [|contradiction].
  rewrite (Router_Match_map
             (fun o => match o with
                       | Some h => Some (ServeHTTP h)
                       | None => None
                       end)).
  rewrite Hmatch. simpl. now rewrite Hhd.
Qed.

Lemma registerDefaultRoutes_router (h : Handler) :
  router (registerDefaultRoutes h) =
  (router h ++
   [registered_route regexpTypePath "/_healthz" (okHandler h);
    registered_route regexpTypePath "/_health" (okHandler h);
    registered_route regexpTypePath "/up" (okHandler h)])%list.
Proof.
  unfold registerDefaultRoutes.
  repeat (rewrite Router_Handle_spec; cbn [fst set_router router okHandler]).
  now rewrite <- !app_assoc.
Qed.

(** What [Serve] leaves in the coordinator: the default routes after the
    routes registered before, and the router inside the recovery handler as
    the handler of the primary server. *)
Lemma Serve_handler (env : Env) (h : Handler) (w : World) :
  router (serve_handler (Serve env h w)) = router (registerDefaultRoutes h)
  /\ Server_Handler (server (serve_handler (Serve env h w))) =
     Some (recoveryHandler (Router (router (registerDefaultRoutes h)))
             (logger h) true)
  /\ logger (serve_handler (Serve env h w)) = logger h.
Proof.
  unfold Serve.
  destruct (done_at (ctx _)) as [t|]; [|now repeat split].
  destruct (Server_Shutdown _ _ _) as [[e|] w3]; now repeat split.
Qed.

End ServingFacts.

(** C8: in the handler [Serve] gives the primary server, the recovery
    handler is outermost, the router is inside it, and a request the router
    hands to a handler registered through the coordinator runs the [Timer]
    around the user's handler.  The user's handler runs after the recorder
    has started (the label exists), its whole run is what the recorder
    observes when it returns, and its panic is what the recovery handler
    turns into a normal end with status 500. *)
Theorem recovery_outside_timer_outside_handler `{MuxSem} (env : Env)
    (h : Handler) (w0 : World) (user : http_Handler)
    (lg : logrus.FieldLogger) (rw : ResponseWriter) (req : Request)
    (w : World) (rt : Route http_Handler)
    (Hclean : cleanPath (req_path req) = req_path req)
    (Hmatch : Router_Match (router (serve_handler (Serve env h w0))) req
              = Some rt)
    (Hhandler : route_handler rt = Some (Timer user lg)) :
  let h' := serve_handler (Serve env h w0) in
  let req' := requestWithRoute req (route_conf rt) in
  let label := route_label (route_conf rt) in
  let w1 := set_httpDuration (WithLabelValues label (httpDuration w)) w in
  exists handler,
    Server_Handler (server h') = Some handler
    /\ handler = recoveryHandler (Router (router h')) (logger h) true
    /\ router h' =
       (router h ++
        [registered_route regexpTypePath "/_healthz" (okHandler h);
         registered_route regexpTypePath "/_health" (okHandler h);
         registered_route regexpTypePath "/up" (okHandler h)])%list
    /\ ServeHTTP handler rw req w =
       recoveryHandler_ServeHTTP
         (Timer_ServeHTTP (ServeHTTP user) lg) (logger h) true rw req' w
    /\ match ServeHTTP user rw req' w1 with
       | (Returned, rw', w') =>
           ServeHTTP handler rw req w =
           (Returned, rw',
            set_httpDuration
              (Observe label (now w' - now w) (httpDuration w')) w')
       | (Panicked v, rw', w') =>
           ServeHTTP handler rw req w =
           (Returned, WriteHeader StatusInternalServerError rw',
            Infof (logger h) debug_Stack (Infof (logger h) (panic_text v) w'))
       end.
Proof.
  intros h' req' label w1.
  destruct (Serve_handler env h w0) as (Hr & Hs & _).
  exists (recoveryHandler (Router (router h')) (logger h) true).
  split; [unfold h'; now rewrite Hs, Hr|].
  split; [reflexivity|].
  split; [unfold h'; rewrite Hr; apply registerDefaultRoutes_router|].
  assert (Hnest :
    ServeHTTP (recoveryHandler (Router (router h')) (logger h) true) rw req w =
    recoveryHandler_ServeHTTP
      (Timer_ServeHTTP (ServeHTTP user) lg) (logger h) true rw req' w).
  { rewrite ServeHTTP_recoveryHandler. unfold recoveryHandler_ServeHTTP.
    now rewrite (Router_dispatch (router h') rw req w rt (Timer user lg)
                   Hclean Hmatch Hhandler). }
  split; [exact Hnest|].
  rewrite Hnest. unfold recoveryHandler_ServeHTTP.
  rewrite (Timer_ServeHTTP_with_route _ lg rw req' w (route_conf rt) eq_refl).
  fold label. cbv zeta. fold w1.
  destruct (ServeHTTP user rw req' w1) as [[[|v] rw'] w']; reflexivity.
Qed.

Lemma recovery_outside_timer_outside_handler_witness :
  @Router_Match literal_paths _
    (router (serve_handler (@Serve literal_paths idle greeter initial_world)))
    (mkRequest "GET" "/hello" None) =
  Some (@registered_route literal_paths _ regexpTypePath "/hello"
          (Timer (HandlerFunc hello) "http"))
  /\ exists handler,
       Server_Handler
         (server (serve_handler
                    (@Serve literal_paths idle greeter initial_world)))
       = Some handler
       /\ @ServeHTTP literal_paths handler (fresh_rw None)
            (mkRequest "GET" "/hello" None) initial_world =
          (Returned,
           {| rw_status := Some 200; rw_header := []; rw_body := "Hello";
              rw_conn_err := None |},
           {| now := 7; log := [];
              httpDuration := Observe "/hello" 7 (WithLabelValues "/hello" ∅) |}).
Proof.
  split; [reflexivity|].
  destruct (@recovery_outside_timer_outside_handler literal_paths idle greeter
              initial_world (HandlerFunc hello) "http" (fresh_rw None)
              (mkRequest "GET" "/hello" None) initial_world
              (@registered_route literal_paths _ regexpTypePath "/hello"
                 (Timer (HandlerFunc hello) "http"))
              eq_refl eq_refl eq_refl) as (handler & Hs & _ & _ & _ & Hrun).
  exists handler. split; [exact Hs|]. exact Hrun.
Defined.

(** A panic of the user's function under the same coordinator: the recovery
    handler answers 500 and logs the panic and the stack; the label exists,
    without an observation. *)
Example panic_is_contained :
  @ServeHTTP literal_paths
    (recoveryHandler
       (Router (fst (@Router_Handle literal_paths _ "/boom"
                       (NewTimer "http" (HandlerFunc boom)) [])))
       "http" true)
    (fresh_rw None) (mkRequest "POST" "/boom" None) initial_world =
  (Returned,
   {| rw_status := Some 500; rw_header := []; rw_body := "";
      rw_conn_err := None |},
   {| now := 0;
      log := [logrus.mkEntry "http" logrus.InfoLevel "boom";
              logrus.mkEntry "http" logrus.InfoLevel "goroutine [running]"];
      httpDuration := WithLabelValues "/boom" ∅ |}).
Proof. reflexivity. Qed.

(** ** The default health paths *)

(** C9, as the code and net/http have it: on a router that builds the
    matchers of the three literal paths, lets each accept its own text and
    finds them clean, [Serve] on a new coordinator registers exactly the three
    default paths, each with the coordinator's health responder; for a
    request to any of them, whatever its method, the handler of the primary
    server writes status 200 and the text ok to its response and logs
    nothing; the client is sent status 200 and the body ok, except for a
    HEAD request, whose answer has status 200 and no body. *)
Theorem default_health_paths `{MuxSem}
    (Hliteral : forall p, In p default_paths ->
       newRouteRegexp regexpTypePath p = None
       /\ regexp_match (mkRouteRegexp p regexpTypePath) p = true
       /\ cleanPath p = p)
    (env : Env) (c : context_Context) (lg : logrus.FieldLogger)
    (listen metrics method p : string) (w0 w : World)
    (Hp : In p default_paths) :
  let h' := serve_handler
              (Serve env (NewHandlerWithContext c lg listen metrics) w0) in
  router h' =
    map (fun p => mkRoute (Some (OkHandler lg)) (path_route regexpTypePath p))
      default_paths
  /\ exists handler,
       Server_Handler (server h') = Some handler
       /\ ServeHTTP handler (fresh_rw None) (mkRequest method p None) w =
          (Returned,
           {| rw_status := Some 200; rw_header := []; rw_body := "ok";
              rw_conn_err := None |},
           w)
       /\ conn_serve handler (mkRequest method p None) w =
          (Some {| resp_status := 200;
                   resp_body := if decide (method = "HEAD") then ""
                                else "ok" |},
           w).
Proof.
  intros h'.
  destruct (Serve_handler env (NewHandlerWithContext c lg listen metrics) w0)
    as (Hr & Hs & _).
  fold h' in Hr, Hs.
  assert (Hroutes : router h' =
    map (fun p => mkRoute (Some (OkHandler lg)) (path_route regexpTypePath p))
      default_paths).
  { rewrite Hr, registerDefaultRoutes_router. simpl.
    unfold registered_route. rewrite !addRegexpMatcher_new.
    destruct (Hliteral "/_healthz") as (-> & _); [simpl; auto|].
    destruct (Hliteral "/_health") as (-> & _); [simpl; auto|].
    destruct (Hliteral "/up") as (-> & _); [simpl; auto|].
    reflexivity. }
  split; [exact Hroutes|].
  eexists. split; [exact Hs|].
  assert (Hrun :
    ServeHTTP
      (recoveryHandler
         (Router (router (registerDefaultRoutes
                            (NewHandlerWithContext c lg listen metrics))))
         (logger (NewHandlerWithContext c lg listen metrics)) true)
      (fresh_rw None) (mkRequest method p None) w =
    (Returned,
     {| rw_status := Some 200; rw_header := []; rw_body := "ok";
        rw_conn_err := None |},
     w)).
  { rewrite <- Hr, Hroutes.
    rewrite ServeHTTP_recoveryHandler. unfold recoveryHandler_ServeHTTP.
    rewrite ServeHTTP_Router. unfold Router_ServeHTTP.
    destruct (Hliteral p Hp) as (_ & Hm & Hclean).
    cbn [req_path]. rewrite Hclean.
    destruct (decide (p = p)); [|contradiction].
    unfold Router_Match, Route_Match. simpl.
    simpl in Hp.
    destruct Hp as [<-|[<-|[<-|[]]]]; rewrite ?Hm;
      repeat match goal with
             | |- context [regexp_match ?re ?q] => destruct (regexp_match re q)
             end;
      reflexivity. }
  split; [exact Hrun|].
  unfold conn_serve. rewrite Hrun. reflexivity.
Qed.

Lemma default_health_paths_witness :
  In "/up" default_paths
  /\ exists handler,
       Server_Handler
         (server (serve_handler
                    (@Serve literal_paths idle coordinator initial_world)))
       = Some handler
       /\ @ServeHTTP literal_paths handler (fresh_rw None)
            (mkRequest "DELETE" "/up" None) initial_world =
          (Returned,
           {| rw_status := Some 200; rw_header := []; rw_body := "ok";
              rw_conn_err := None |},
           initial_world)
       /\ @conn_serve literal_paths handler (mkRequest "DELETE" "/up" None)
            initial_world =
          (Some {| resp_status := 200; resp_body := "ok" |}, initial_world).
Proof.
  split; [simpl; auto|].
  refine (proj2 (@default_health_paths literal_paths _ idle
                   (mkContext (Some 5)) "http" ":8080" ":9090" "DELETE" "/up"
                   initial_world initial_world _)).
  - intros p Hp. simpl in Hp.
    destruct Hp as [<-|[<-|[<-|[]]]]; repeat split; reflexivity.
  - simpl; auto.
Defined.

(** C9 as stated fails for the method HEAD: on the default coordinator the
    answer to HEAD /up has status 200 and an empty body, not the body ok. *)
Lemma HEAD_health_answer_has_no_body :
  option_map
    (fun handler =>
       @conn_serve literal_paths handler (mkRequest "HEAD" "/up" None)
         initial_world)
    (Server_Handler
       (server (serve_handler
                  (@Serve literal_paths idle coordinator initial_world)))) =
  Some (Some {| resp_status := 200; resp_body := "" |}, initial_world)
  /\ {| resp_status := 200; resp_body := "" |}
     <> {| resp_status := 200; resp_body := "ok" |}.
Proof. split; [reflexivity|discriminate]. Qed.

(** ** A panic under the latency recorder *)

(** C10, as the code has it: when the delegate panics, the recorder ends
    with the same panic in the state the delegate left, so it observes
    nothing after it, and the recovery handler outside turns the panic into
    status 500.  With a delegate that leaves the histogram alone, every
    label has the observations it had before the request; what the request
    changes is that the label of its route has a child, made before the
    delegate ran. *)
Theorem panic_records_no_observation `{MuxSem} (handler : http_Handler)
    (lg : logrus.FieldLogger) (rw rw' : ResponseWriter) (r : Request)
    (w w' : World) (route : RouteConf) (v : PanicValue)
    (Hroute : CurrentRoute r = Some route)
    (Hpanic :
       ServeHTTP handler rw r
         (set_httpDuration
            (WithLabelValues (route_label route) (httpDuration w)) w)
       = (Panicked v, rw', w')) :
  ServeHTTP (Timer handler lg) rw r w = (Panicked v, rw', w')
  /\ (forall lg' printStack,
        ServeHTTP (recoveryHandler (Timer handler lg) lg' printStack) rw r w =
        (Returned, WriteHeader StatusInternalServerError rw',
         if printStack
         then Infof lg' debug_Stack (Infof lg' (panic_text v) w')
         else Infof lg' (panic_text v) w'))
  /\ (httpDuration w' = WithLabelValues (route_label route) (httpDuration w) ->
      (forall lv,
         observations lv (httpDuration w') = observations lv (httpDuration w))
      /\ is_Some (httpDuration w' !! route_label route)).
Proof.
  assert (Ht : ServeHTTP (Timer handler lg) rw r w = (Panicked v, rw', w')).
  { change (ServeHTTP (Timer handler lg))
      with (Timer_ServeHTTP (ServeHTTP handler) lg).
    rewrite (Timer_ServeHTTP_with_route _ lg rw r w route Hroute).
    cbv zeta. now rewrite Hpanic. }
  split; [exact Ht|]. split.
  - intros lg' printStack. rewrite ServeHTTP_recoveryHandler.
    unfold recoveryHandler_ServeHTTP. rewrite Ht. now destruct printStack.
  - intros Hh. split.
    + intros lv. rewrite Hh. apply observations_WithLabelValues.
    + rewrite Hh. unfold WithLabelValues.
      destruct (httpDuration w !! route_label route) as [l|] eqn:Hl.
      * rewrite Hl. eauto.
      * rewrite lookup_insert_eq. eauto.
Qed.

Example boom_under_Timer :
  @ServeHTTP literal_paths (Timer (HandlerFunc boom) "http") (fresh_rw None)
    (mkRequest "GET" "/x" (Some (path_route regexpTypePath "/x")))
    initial_world =
  (Panicked (UserPanic "boom"), fresh_rw None,
   set_httpDuration (WithLabelValues "/x" ∅) initial_world).
Proof. reflexivity. Qed.

Lemma panic_records_no_observation_witness :
  @ServeHTTP literal_paths (Timer (HandlerFunc boom) "http") (fresh_rw None)
    (mkRequest "GET" "/x" (Some (path_route regexpTypePath "/x")))
    initial_world =
  (Panicked (UserPanic "boom"), fresh_rw None,
   set_httpDuration (WithLabelValues "/x" ∅) initial_world)
  /\ forall lv,
       observations lv (WithLabelValues "/x" ∅) = observations lv ∅.
Proof.
  pose proof (@panic_records_no_observation literal_paths
                (HandlerFunc boom) "http" (fresh_rw None) (fresh_rw None)
                (mkRequest "GET" "/x" (Some (path_route regexpTypePath "/x")))
                initial_world
                (set_httpDuration (WithLabelValues "/x" ∅) initial_world)
                (path_route regexpTypePath "/x") (UserPanic "boom")
                eq_refl eq_refl) as (Hrun & _ & Hobs).
  split; [exact Hrun|]. exact (proj1 (Hobs eq_refl)).
Defined.

(** C10 as stated fails in its parenthesis: a request to a route not seen
    before, whose delegate panics, leaves the histogram vector changed; the
    label of the route has a child, with no observation. *)
Lemma panic_still_makes_label :
  let '(outcome, _, w') :=
    @ServeHTTP literal_paths (Timer (HandlerFunc boom) "http") (fresh_rw None)
      (mkRequest "GET" "/x" (Some (path_route regexpTypePath "/x")))
      initial_world in
  outcome = Panicked (UserPanic "boom")
  /\ httpDuration initial_world !! "/x" = None
  /\ httpDuration w' !! "/x" = Some []
  /\ httpDuration w' <> httpDuration initial_world.
Proof.
  rewrite boom_under_Timer.
  assert (Hl : httpDuration
                 (set_httpDuration (WithLabelValues "/x" ∅) initial_world)
               !! "/x" = Some []).
  { cbn [httpDuration set_httpDuration]. unfold WithLabelValues.
    rewrite lookup_empty. apply lookup_insert_eq. }
  split; [reflexivity|]. split; [apply lookup_empty|]. split; [exact Hl|].
  intros Heq. rewrite Heq in Hl.
  cbn [httpDuration initial_world] in Hl. rewrite lookup_empty in Hl.
  discriminate.
Qed.

(** * Further properties of the coordinator and the recorder *)

Section RouterFacts.
Context `{MuxSem}.

Lemma Router_Match_app_l {A : Type} (routes more : list (Route A))
    (req : Request) (rt : Route A) :
  Router_Match routes req = Some rt ->
  Router_Match (routes ++ more) req = Some rt.
Proof.
  unfold Router_Match. induction routes as [|r routes IH]; simpl;
    [discriminate|].
  destruct (Route_Match r req); [trivial|exact IH].
Qed.

Lemma Router_Match_app_r {A : Type} (routes more : list (Route A))
    (req : Request) :
  Router_Match routes req = None ->
  Router_Match (routes ++ more) req = Router_Match more req.
Proof.
  unfold Router_Match. induction routes as [|r routes IH]; simpl;
    [reflexivity|].
  destruct (Route_Match r req); [discriminate|exact IH].
Qed.

(** [Router.ServeHTTP] by cases, on the routes themselves. *)
Lemma ServeHTTP_Router_cases (routes : list (Route http_Handler))
    (rw : ResponseWriter) (req : Request) (w : World) :
  ServeHTTP (Router routes) rw req w =
  if decide (cleanPath (req_path req) = req_path req) then
    match Router_Match routes req with
    | Some rt =>
        match route_handler rt with
        | Some hd => ServeHTTP hd rw (requestWithRoute req (route_conf rt)) w
        | None => NotFound rw (requestWithRoute req (route_conf rt)) w
        end
    | None => NotFound rw req w
    end
  else
    (Returned,
     WriteHeader StatusMovedPermanently
       (Header_Set "Location" (cleanPath (req_path req)) rw),
     w).
Proof.
  rewrite ServeHTTP_Router. unfold Router_ServeHTTP.
  destruct (decide (cleanPath (req_path req) = req_path req)); [|reflexivity].
  rewrite (Router_Match_map
             (fun o => match o with
                       | Some h => Some (ServeHTTP h)
                       | None => None
                       end)).
  destruct (Router_Match routes req) as [rt|]; simpl; [|reflexivity].
  now destruct (route_handler rt).
Qed.

Lemma register_router (typ : regexpType) (path : string)
    (hd : http_Handler) (h : Handler) :
  router (fst (register typ path hd h)) =
  (router h ++ [registered_route typ path (Timer hd (logger h))])%list
  /\ snd (register typ path hd h) = length (router h)
  /\ logger (fst (register typ path hd h)) = logger h
  /\ okHandler (fst (register typ path hd h)) = okHandler h
  /\ server (fst (register typ path hd h)) = server h.
Proof.
  destruct typ; cbn [register].
  - unfold Handle, NewTimer. rewrite Router_Handle_spec. now repeat split.
  - unfold HandlePrefix, NewTimer.
    destruct (Router_PathPrefix_Handler_spec path (Timer hd (logger h))
                (router h)) as [Hr Hi].
    destruct (Router_PathPrefix path (router h)) as [routes route].
    simpl in Hr, Hi. simpl. rewrite Hr, Hi. now repeat split.
Qed.

Lemma AddOkHandler_router (path : string) (h : Handler) :
  router (AddOkHandler path h) =
  (router h ++ [registered_route regexpTypePath path (okHandler h)])%list.
Proof. unfold AddOkHandler. now rewrite Router_Handle_spec. Qed.

Lemma Serve_router (env : Env) (h : Handler) (w : World) :
  router (serve_handler (Serve env h w)) =
  (router h ++
   [registered_route regexpTypePath "/_healthz" (okHandler h);
    registered_route regexpTypePath "/_health" (okHandler h);
    registered_route regexpTypePath "/up" (okHandler h)])%list.
Proof.
  destruct (Serve_handler env h w) as (-> & _).
  apply registerDefaultRoutes_router.
Qed.

Lemma registered_route_match {A : Type} (typ : regexpType) (path : string)
    (hd : A) (req : Request) :
  Route_Match (registered_route typ path hd) req =
  match newRouteRegexp typ path with
  | Some _ => false
  | None => regexp_match (mkRouteRegexp path typ) (req_path req)
  end.
Proof.
  unfold Route_Match, registered_route. simpl. rewrite addRegexpMatcher_new.
  now destruct (newRouteRegexp typ path).
Qed.

Lemma registered_route_ok (P : http_Handler -> Prop)
    (lg : logrus.FieldLogger) (typ : regexpType) (path : string)
    (hd : http_Handler) :
  hd = OkHandler lg \/ (exists user, hd = Timer user lg /\ P user) ->
  route_ok P lg (registered_route typ path hd).
Proof.
  intros Hhd. unfold route_ok, registered_route. simpl.
  rewrite addRegexpMatcher_new.
  destruct (newRouteRegexp typ path); simpl; [discriminate|auto].
Qed.

End RouterFacts.

Section RouterAppend.
Context `{MuxSem}.

Lemma Router_Match_snoc_no_match {A : Type} (routes : list (Route A))
    (rt : Route A) (req : Request) :
  Route_Match rt req = false ->
  Router_Match (routes ++ [rt]) req = Router_Match routes req.
Proof.
  intros Hno. destruct (Router_Match routes req) as [r|] eqn:Hm.
  - now apply Router_Match_app_l.
  - rewrite Router_Match_app_r by exact Hm.
    unfold Router_Match. simpl. now rewrite Hno.
Qed.

(** Routes added behind a route that matches do not change the answer. *)
Lemma ServeHTTP_Router_app (routes more : list (Route http_Handler))
    (rw : ResponseWriter) (req : Request) (w : World)
    (rt : Route http_Handler) :
  Router_Match routes req = Some rt ->
  ServeHTTP (Router (routes ++ more)) rw req w =
  ServeHTTP (Router routes) rw req w.
Proof.
  intros Hm. rewrite !ServeHTTP_Router_cases.
  now rewrite (Router_Match_app_l routes more req rt Hm), Hm.
Qed.

End RouterAppend.

(** ** The recorder as an observer *)

(** X1: when the delegate returns and leaves the histogram alone, the
    recorder adds exactly one observation, the time the delegate took, under
    the label of the request's route; no other label changes, and neither do
    the clock and the log the delegate left. *)
Theorem Timer_records_one_observation `{MuxSem} (handler : http_Handler)
    (lg : logrus.FieldLogger) (rw rw' : ResponseWriter) (r : Request)
    (w w' : World) (route : RouteConf)
    (Hroute : CurrentRoute r = Some route)
    (Hrun :
       ServeHTTP handler rw r
         (set_httpDuration
            (WithLabelValues (route_label route) (httpDuration w)) w)
       = (Returned, rw', w'))
    (Hkeeps :
       httpDuration w' = WithLabelValues (route_label route) (httpDuration w)) :
  exists w'',
    ServeHTTP (Timer handler lg) rw r w = (Returned, rw', w'')
    /\ now w'' = now w' /\ log w'' = log w'
    /\ observations (route_label route) (httpDuration w'') =
       (observations (route_label route) (httpDuration w)
          ++ [now w' - now w])%list
    /\ (forall lv, lv <> route_label route ->
          observations lv (httpDuration w'') = observations lv (httpDuration w)).
Proof.
  change (ServeHTTP (Timer handler lg))
    with (Timer_ServeHTTP (ServeHTTP handler) lg).
  rewrite (Timer_ServeHTTP_with_route _ lg rw r w route Hroute).
  cbv zeta. rewrite Hrun. eexists. split; [reflexivity|].
  cbn [now log httpDuration set_httpDuration].
  split; [reflexivity|]. split; [reflexivity|].
  split.
  - rewrite observations_Observe, Hkeeps, observations_WithLabelValues.
    destruct (decide (route_label route = route_label route));
      [reflexivity|contradiction].
  - intros lv Hne.
    rewrite observations_Observe, Hkeeps, observations_WithLabelValues.
    destruct (decide (route_label route = lv)); [congruence|reflexivity].
Qed.

Lemma Timer_records_one_observation_witness :
  exists w'',
    @ServeHTTP literal_paths (Timer (HandlerFunc hello) "http")
      (fresh_rw None)
      (mkRequest "GET" "/hello" (Some (path_route regexpTypePath "/hello")))
      initial_world =
    (Returned, snd (Write "Hello" (fresh_rw None)), w'')
    /\ observations "/hello" (httpDuration w'') = [7].
Proof.
  destruct (@Timer_records_one_observation literal_paths (HandlerFunc hello)
              "http" (fresh_rw None) (snd (Write "Hello" (fresh_rw None)))
              (mkRequest "GET" "/hello"
                 (Some (path_route regexpTypePath "/hello")))
              initial_world
              (set_now 7
                 (set_httpDuration (WithLabelValues "/hello" ∅) initial_world))
              (path_route regexpTypePath "/hello")
              eq_refl eq_refl eq_refl) as (w'' & Hrun & _ & _ & Hobs & _).
  exists w''. split; [exact Hrun|exact Hobs].
Defined.

(** X2: for a request that carries a route, the recorder is an observer: it
    ends the way its delegate ends, with the response, the clock and the log
    exactly as the delegate left them. *)
Theorem Timer_is_transparent `{MuxSem} (handler : http_Handler)
    (lg : logrus.FieldLogger) (rw : ResponseWriter) (r : Request) (w : World)
    (route : RouteConf) (Hroute : CurrentRoute r = Some route) :
  let delegate :=
    ServeHTTP handler rw r
      (set_httpDuration
         (WithLabelValues (route_label route) (httpDuration w)) w) in
  let recorded := ServeHTTP (Timer handler lg) rw r w in
  fst (fst recorded) = fst (fst delegate)
  /\ snd (fst recorded) = snd (fst delegate)
  /\ now (snd recorded) = now (snd delegate)
  /\ log (snd recorded) = log (snd delegate).
Proof.
  cbv zeta.
  change (ServeHTTP (Timer handler lg))
    with (Timer_ServeHTTP (ServeHTTP handler) lg).
  rewrite (Timer_ServeHTTP_with_route _ lg rw r w route Hroute).
  cbv zeta.
  destruct (ServeHTTP handler rw r _) as [[[|v] rw'] w']; now repeat split.
Qed.

Lemma Timer_is_transparent_witness :
  snd (fst (@ServeHTTP literal_paths (Timer (HandlerFunc hello) "http")
              (fresh_rw None)
              (mkRequest "GET" "/hello"
                 (Some (path_route regexpTypePath "/hello")))
              initial_world)) =
  snd (Write "Hello" (fresh_rw None)).
Proof.
  exact (proj1 (proj2
    (@Timer_is_transparent literal_paths (HandlerFunc hello) "http"
       (fresh_rw None)
       (mkRequest "GET" "/hello" (Some (path_route regexpTypePath "/hello")))
       initial_world (path_route regexpTypePath "/hello") eq_refl))).
Defined.

(** ** Registration and dispatch *)

(** X3: a handler registered with [Handle] or [HandlePrefix] under a
    well-formed template is what the router runs for a clean request that
    the template accepts and no earlier route matches: inside a [Timer] with
    the coordinator's logger, and recorded under the template, whatever the
    path of the request. *)
Theorem register_then_dispatch `{MuxSem} (typ : regexpType) (path : string)
    (user : http_Handler) (h : Handler) (rw : ResponseWriter) (req : Request)
    (w : World)
    (Hcompile : newRouteRegexp typ path = None)
    (Haccepts : regexp_match (mkRouteRegexp path typ) (req_path req) = true)
    (Hclean : cleanPath (req_path req) = req_path req)
    (Hfree : Router_Match (router h) req = None) :
  ServeHTTP (Router (router (fst (register typ path user h)))) rw req w =
  let req' := requestWithRoute req (path_route typ path) in
  let w1 := set_httpDuration (WithLabelValues path (httpDuration w)) w in
  match ServeHTTP user rw req' w1 with
  | (Panicked v, rw', w') => (Panicked v, rw', w')
  | (Returned, rw', w') =>
      (Returned, rw',
       set_httpDuration (Observe path (now w' - now w) (httpDuration w')) w')
  end.
Proof.
  destruct (register_router typ path user h) as (Hr & _).
  rewrite ServeHTTP_Router_cases, Hr.
  destruct (decide (cleanPath (req_path req) = req_path req)); [|contradiction].
  rewrite (Router_Match_app_r _ _ _ Hfree).
  unfold Router_Match. simpl.
  rewrite registered_route_match, Hcompile, Haccepts.
  unfold registered_route. rewrite addRegexpMatcher_new, Hcompile. simpl.
  fold (path_route typ path).
  exact (Timer_ServeHTTP_with_route (ServeHTTP user) (logger h) rw
           (requestWithRoute req (path_route typ path)) w
           (path_route typ path) eq_refl).
Qed.

Lemma register_then_dispatch_witness :
  @ServeHTTP literal_paths (Router (router static_site)) (fresh_rw None)
    (mkRequest "GET" "/static/app.js" None) initial_world =
  (Returned, snd (Write "Hello" (fresh_rw None)),
   {| now := 7; log := [];
      httpDuration := Observe "/static/" 7 (WithLabelValues "/static/" ∅) |}).
Proof.
  exact (@register_then_dispatch literal_paths regexpTypePrefix "/static/"
           (HandlerFunc hello) coordinator (fresh_rw None)
           (mkRequest "GET" "/static/app.js" None) initial_world
           eq_refl eq_refl eq_refl eq_refl).
Defined.

(** X4: registering under a malformed template fails silently: the route
    returned carries the error and no handler, and the router answers every
    request as it did before. *)
Theorem malformed_template_is_inert `{MuxSem} (typ : regexpType)
    (path : string) (e : Err) (hd : http_Handler) (h : Handler)
    (rw : ResponseWriter) (req : Request) (w : World)
    (Herr : newRouteRegexp typ path = Some e) :
  router (fst (register typ path hd h)) !! snd (register typ path hd h) =
    Some {| route_handler := None;
            route_conf := {| route_err := Some e;
                             route_regexp_path := None |} |}
  /\ ServeHTTP (Router (router (fst (register typ path hd h)))) rw req w =
     ServeHTTP (Router (router h)) rw req w.
Proof.
  destruct (register_router typ path hd h) as (Hr & Hi & _).
  rewrite Hr, Hi. split.
  - rewrite lookup_app_r, Nat.sub_diag by lia. simpl.
    unfold registered_route. now rewrite addRegexpMatcher_new, Herr.
  - rewrite !ServeHTTP_Router_cases.
    rewrite Router_Match_snoc_no_match; [reflexivity|].
    now rewrite registered_route_match, Herr.
Qed.

Lemma malformed_template_is_inert_witness :
  router (fst (@Handle literal_paths "hello" (HandlerFunc hello) coordinator))
    !! 0%nat =
  Some {| route_handler := None;
          route_conf :=
            {| route_err :=
                 Some (ErrOther "mux: path must start with a slash, got hello");
               route_regexp_path := None |} |}.
Proof.
  exact (proj1 (@malformed_template_is_inert literal_paths regexpTypePath
                  "hello"
                  (ErrOther "mux: path must start with a slash, got hello")
                  (HandlerFunc hello) coordinator (fresh_rw None)
                  (mkRequest "GET" "/hello" None) initial_world eq_refl)).
Defined.

(** X5: the first registration wins.  A request that a route of the
    coordinator matches is still handed to that route after any further
    [Handle], [HandlePrefix] or [AddOkHandler], and after [Serve] has added
    the default health paths: a later registration never overrides an
    earlier one, and the defaults never override the caller's routes. *)
Theorem earlier_route_wins `{MuxSem} (h : Handler) (req : Request)
    (rt : Route http_Handler) (typ : regexpType) (path : string)
    (hd : http_Handler) (env : Env) (w0 : World) (rw : ResponseWriter)
    (w : World) (Hmatch : Router_Match (router h) req = Some rt) :
  Router_Match (router (fst (register typ path hd h))) req = Some rt
  /\ Router_Match (router (AddOkHandler path h)) req = Some rt
  /\ Router_Match (router (serve_handler (Serve env h w0))) req = Some rt
  /\ ServeHTTP (Router (router (fst (register typ path hd h)))) rw req w =
     ServeHTTP (Router (router h)) rw req w
  /\ ServeHTTP (Router (router (AddOkHandler path h))) rw req w =
     ServeHTTP (Router (router h)) rw req w
  /\ ServeHTTP (Router (router (serve_handler (Serve env h w0)))) rw req w =
     ServeHTTP (Router (router h)) rw req w.
Proof.
  destruct (register_router typ path hd h) as (Hr & _).
  rewrite Hr, AddOkHandler_router, Serve_router.
  repeat split;
    solve [ now apply Router_Match_app_l
          | now apply (ServeHTTP_Router_app _ _ rw req w rt) ].
Qed.

Lemma earlier_route_wins_witness :
  @Router_Match literal_paths _
    (router (serve_handler
               (@Serve literal_paths idle
                  (fst (@HandleFunc literal_paths "/up" hello coordinator))
                  initial_world)))
    (mkRequest "GET" "/up" None) =
  Some (@registered_route literal_paths _ regexpTypePath "/up"
          (Timer (HandlerFunc hello) "http")).
Proof.
  exact (proj1 (proj2 (proj2
    (@earlier_route_wins literal_paths
       (fst (@HandleFunc literal_paths "/up" hello coordinator))
       (mkRequest "GET" "/up" None)
       (@registered_route literal_paths _ regexpTypePath "/up"
          (Timer (HandlerFunc hello) "http"))
       regexpTypePath "/x" (HandlerFunc boom) idle initial_world
       (fresh_rw None) initial_world eq_refl)))).
Defined.

(** X6: the routes of the router only grow at the end: a route handle
    returned by a registration designates the same route after every later
    registration and after [Serve]. *)
Theorem route_handles_stay_valid `{MuxSem} (h : Handler) (route : nat)
    (rt : Route http_Handler) (typ : regexpType) (path : string)
    (hd : http_Handler) (env : Env) (w0 : World)
    (Hroute : router h !! route = Some rt) :
  router (fst (register typ path hd h)) !! route = Some rt
  /\ router (AddOkHandler path h) !! route = Some rt
  /\ router (serve_handler (Serve env h w0)) !! route = Some rt
  /\ (route < snd (register typ path hd h))%nat.
Proof.
  destruct (register_router typ path hd h) as (Hr & Hi & _).
  rewrite Hr, Hi, AddOkHandler_router, Serve_router.
  repeat split; try (now apply lookup_app_l_Some).
  now apply lookup_lt_Some in Hroute.
Qed.

Lemma route_handles_stay_valid_witness :
  router (serve_handler (@Serve literal_paths idle greeter initial_world))
    !! 0%nat =
  Some (@registered_route literal_paths _ regexpTypePath "/hello"
          (Timer (HandlerFunc hello) "http")).
Proof.
  exact (proj1 (proj2 (proj2
    (@route_handles_stay_valid literal_paths greeter 0%nat
       (@registered_route literal_paths _ regexpTypePath "/hello"
          (Timer (HandlerFunc hello) "http"))
       regexpTypePath "/x" (HandlerFunc boom) idle initial_world eq_refl)))).
Defined.

(** X7: a request no route matches never reaches a [Timer]: after [Serve]
    the primary server answers it from the router alone, 404 for a clean
    path and a redirect to the clean path otherwise, and nothing is logged or
    recorded. *)
Theorem unmatched_request_is_not_recorded `{MuxSem} (env : Env) (h : Handler)
    (w0 : World) (rw : ResponseWriter) (req : Request) (w : World)
    (Hnone : cleanPath (req_path req) = req_path req ->
             Router_Match (router (serve_handler (Serve env h w0))) req = None) :
  exists handler,
    Server_Handler (server (serve_handler (Serve env h w0))) = Some handler
    /\ ServeHTTP handler rw req w = (Returned, router_answer rw req, w)
    /\ rw_status (router_answer rw req) =
       Some (default
               (if decide (cleanPath (req_path req) = req_path req)
                then StatusNotFound else StatusMovedPermanently)
               (rw_status rw)).
Proof.
  destruct (Serve_handler env h w0) as (Hr & Hs & _).
  eexists. split; [exact Hs|]. rewrite <- Hr.
  rewrite ServeHTTP_recoveryHandler. unfold recoveryHandler_ServeHTTP.
  rewrite ServeHTTP_Router_cases. unfold router_answer.
  destruct (decide (cleanPath (req_path req) = req_path req)) as [Hc|Hc].
  - rewrite (Hnone Hc). split; [reflexivity|].
    unfold http_Error, Write, WriteHeader, Header_Set.
    destruct rw as [[st|] hd body [ce|]]; reflexivity.
  - split; [reflexivity|].
    unfold WriteHeader, Header_Set. destruct rw as [[st|] hd body conn];
      reflexivity.
Qed.

Lemma unmatched_request_is_not_recorded_witness :
  exists handler,
    Server_Handler
      (server (serve_handler (@Serve literal_paths idle greeter initial_world)))
    = Some handler
    /\ @ServeHTTP literal_paths handler (fresh_rw None)
         (mkRequest "GET" "/nope" None) initial_world =
       (Returned,
        @router_answer literal_paths (fresh_rw None)
          (mkRequest "GET" "/nope" None),
        initial_world).
Proof.
  destruct (@unmatched_request_is_not_recorded literal_paths idle greeter
              initial_world (fresh_rw None) (mkRequest "GET" "/nope" None)
              initial_world (fun _ => eq_refl)) as (handler & Hs & Hrun & _).
  exists handler. split; [exact Hs|exact Hrun].
Defined.

(** X8: whatever is registered, the handler [Serve] gives the primary server
    never panics.  When the router below it returns, the answer is passed on
    untouched; when anything below panics, the request ends normally, the
    panic and the stack are logged at info level, and the status is 500
    unless a status had been sent before the panic. *)
Theorem primary_handler_contains_panics `{MuxSem} (env : Env) (h : Handler)
    (w0 : World) (rw : ResponseWriter) (req : Request) (w : World) :
  exists handler,
    Server_Handler (server (serve_handler (Serve env h w0))) = Some handler
    /\ fst (fst (ServeHTTP handler rw req w)) = Returned
    /\ match ServeHTTP (Router (router (serve_handler (Serve env h w0))))
               rw req w with
       | (Returned, rw', w') => ServeHTTP handler rw req w = (Returned, rw', w')
       | (Panicked v, rw', w') =>
           ServeHTTP handler rw req w =
           (Returned, WriteHeader StatusInternalServerError rw',
            Infof (logger h) debug_Stack (Infof (logger h) (panic_text v) w'))
           /\ rw_status (WriteHeader StatusInternalServerError rw') =
              Some (default StatusInternalServerError (rw_status rw'))
           /\ rw_body (WriteHeader StatusInternalServerError rw') = rw_body rw'
       end.
Proof.
  destruct (Serve_handler env h w0) as (Hr & Hs & _).
  eexists. split; [exact Hs|]. rewrite <- Hr.
  rewrite ServeHTTP_recoveryHandler. unfold recoveryHandler_ServeHTTP.
  destruct (ServeHTTP (Router _) rw req w) as [[[|v] rw'] w'].
  - now split.
  - split; [reflexivity|]. split; [reflexivity|].
    unfold WriteHeader. destruct rw' as [[st|] hd body conn]; now split.
Qed.

(** ** Coordinators built through the API *)

Section ConfiguredFacts.
Context `{MuxSem}.

Lemma configured_routes (P : http_Handler -> Prop) (h : Handler) :
  configured P h ->
  okHandler h = OkHandler (logger h)
  /\ Server_Handler (server h) = None
  /\ Forall (route_ok P (logger h)) (router h).
Proof.
  assert (Hreg : forall typ path hd h0,
    P hd ->
    okHandler h0 = OkHandler (logger h0)
    /\ Server_Handler (server h0) = None
    /\ Forall (route_ok P (logger h0)) (router h0) ->
    okHandler (fst (register typ path hd h0)) =
      OkHandler (logger (fst (register typ path hd h0)))
    /\ Server_Handler (server (fst (register typ path hd h0))) = None
    /\ Forall (route_ok P (logger (fst (register typ path hd h0))))
         (router (fst (register typ path hd h0)))).
  { intros typ path hd h0 Hp (Hok & Hsrv & Hall).
    destruct (register_router typ path hd h0) as (Hr & _ & Hl & Ho & Hs).
    rewrite Hr, Hl, Ho, Hs. split; [exact Hok|]. split; [exact Hsrv|].
    apply Forall_app. split; [exact Hall|].
    constructor; [|constructor].
    apply registered_route_ok. right. eauto. }
  induction 1 as [c lg listen metrics | d h Hc IH | path hd h Hp Hc IH
                 | prefix hd h Hp Hc IH | path f h Hp Hc IH
                 | prefix f h Hp Hc IH | path h Hc IH].
  - simpl. repeat split. constructor.
  - exact IH.
  - exact (Hreg regexpTypePath path hd h Hp IH).
  - exact (Hreg regexpTypePrefix prefix hd h Hp IH).
  - exact (Hreg regexpTypePath path (HandlerFunc f) h Hp IH).
  - exact (Hreg regexpTypePrefix prefix (HandlerFunc f) h Hp IH).
  - destruct IH as (Hok & Hsrv & Hall).
    rewrite AddOkHandler_router.
    split; [exact Hok|]. split; [exact Hsrv|].
    change (logger (AddOkHandler path h)) with (logger h).
    apply Forall_app. split; [exact Hall|].
    constructor; [|constructor].
    apply registered_route_ok. left. exact Hok.
Qed.

Lemma OkHandler_returns (lg : logrus.FieldLogger) (rw : ResponseWriter)
    (r : Request) (w : World) :
  fst (fst (OkHandler_ServeHTTP lg rw r w)) = Returned.
Proof.
  unfold OkHandler_ServeHTTP, Fprintf, Write.
  now destruct (rw_conn_err (WriteHeader StatusOK rw)).
Qed.

(** A router whose routes all are as the coordinator makes them panics only
    if a registered handler does. *)
Lemma routes_ok_never_panic (lg : logrus.FieldLogger)
    (routes : list (Route http_Handler)) (rw : ResponseWriter)
    (req : Request) (w : World) :
  Forall (route_ok never_panics lg) routes ->
  fst (fst (ServeHTTP (Router routes) rw req w)) = Returned.
Proof.
  intros Hall. rewrite ServeHTTP_Router_cases.
  destruct (decide (cleanPath (req_path req) = req_path req)); [|reflexivity].
  destruct (Router_Match routes req) as [rt|] eqn:Hm; [|reflexivity].
  apply Router_Match_matches in Hm as [Hin _].
  rewrite Forall_forall in Hall. apply list_elem_of_In in Hin.
  specialize (Hall rt Hin). unfold route_ok in Hall.
  destruct (route_handler rt) as [hd|]; [|reflexivity].
  destruct Hall as (_ & [-> | (user & -> & Hp)]).
  - apply OkHandler_returns.
  - change (ServeHTTP (Timer user lg))
      with (Timer_ServeHTTP (ServeHTTP user) lg).
    rewrite (Timer_ServeHTTP_with_route _ lg rw
               (requestWithRoute req (route_conf rt)) w (route_conf rt)
               eq_refl).
    cbv zeta.
    match goal with
    | |- context [ServeHTTP user ?a ?b ?c] =>
        pose proof (Hp a b c) as Hret;
        destruct (ServeHTTP user a b c) as [[[|v] rw'] w']
    end; [reflexivity|discriminate].
Qed.

End ConfiguredFacts.

(** X9: in every coordinator made by the constructor and changed only by
    the exported methods, the health responder is the [OkHandler] with the
    coordinator's logger, the primary server has no handler before [Serve],
    and each route of the router either carries an error and no handler, or
    no error and a handler that is the health responder or a [Timer], with
    the coordinator's logger, around a handler the caller registered. *)
Theorem configured_invariant `{MuxSem} (P : http_Handler -> Prop)
    (h : Handler) (Hconf : configured P h) :
  okHandler h = OkHandler (logger h)
  /\ Server_Handler (server h) = None
  /\ Forall (route_ok P (logger h)) (router h)
  /\ (forall route rt hd,
        router h !! route = Some rt -> route_handler rt = Some hd ->
        route_err (route_conf rt) = None
        /\ (hd = OkHandler (logger h)
            \/ exists user, hd = Timer user (logger h) /\ P user)).
Proof.
  destruct (configured_routes P h Hconf) as (Hok & Hsrv & Hall).
  split; [exact Hok|]. split; [exact Hsrv|]. split; [exact Hall|].
  intros route rt hd Hl Hh. rewrite Forall_forall in Hall.
  assert (Hin : rt ∈ router h) by (apply list_elem_of_lookup; eauto).
  specialize (Hall rt Hin). unfold route_ok in Hall.
  rewrite Hh in Hall. exact Hall.
Qed.

Lemma configured_invariant_witness :
  @configured literal_paths (fun _ => True) greeter
  /\ Forall (@route_ok (fun _ => True) "http") (router greeter).
Proof.
  assert (Hc : @configured literal_paths (fun _ => True) greeter).
  { apply (@configured_HandleFunc literal_paths (fun _ => True) "/hello"
             hello coordinator I).
    apply configured_New. }
  split; [exact Hc|].
  exact (proj1 (proj2 (proj2
    (@configured_invariant literal_paths (fun _ => True) greeter Hc)))).
Defined.

(** X10: through a coordinator the recorder never meets a request without a
    route.  When none of the registered handlers panics, the router of the
    coordinator, before and after [Serve], ends every request normally: the
    recovery handler has nothing to recover. *)
Theorem coordinator_router_never_panics `{MuxSem} (h : Handler) (env : Env)
    (w0 : World) (rw : ResponseWriter) (req : Request) (w : World)
    (Hconf : configured never_panics h) :
  fst (fst (ServeHTTP (Router (router h)) rw req w)) = Returned
  /\ fst (fst (ServeHTTP (Router (router (serve_handler (Serve env h w0))))
                 rw req w)) = Returned.
Proof.
  destruct (configured_routes never_panics h Hconf) as (Hok & _ & Hall).
  split; [now apply (routes_ok_never_panic (logger h))|].
  apply (routes_ok_never_panic (logger h)).
  rewrite Serve_router. apply Forall_app. split; [exact Hall|].
  repeat constructor; apply registered_route_ok; left; exact Hok.
Qed.

Lemma coordinator_router_never_panics_witness :
  @configured literal_paths (@never_panics literal_paths) greeter
  /\ fst (fst (@ServeHTTP literal_paths
                 (Router (router (serve_handler
                            (@Serve literal_paths idle greeter initial_world))))
                 (fresh_rw None) (mkRequest "GET" "/hello" None)
                 initial_world)) = Returned.
Proof.
  assert (Hc : @configured literal_paths (@never_panics literal_paths) greeter).
  { apply (@configured_HandleFunc literal_paths (@never_panics literal_paths)
             "/hello" hello coordinator).
    - intros rw r w. reflexivity.
    - apply configured_New. }
  split; [exact Hc|].
  exact (proj2 (@coordinator_router_never_panics literal_paths greeter idle
                  initial_world (fresh_rw None)
                  (mkRequest "GET" "/hello" None) initial_world Hc)).
Defined.

(** X11: a path given to [AddOkHandler] answers like the default health
    paths.  When the template is well formed and accepts the clean path of a
    request that no earlier route matches, the router runs the health
    responder on it, without a [Timer]: on a fresh response the answer is
    status 200 with the body ok, and the world is unchanged. *)
Theorem AddOkHandler_then_dispatch `{MuxSem} (path : string) (h : Handler)
    (rw : ResponseWriter) (req : Request) (w : World)
    (Hok : okHandler h = OkHandler (logger h))
    (Hcompile : newRouteRegexp regexpTypePath path = None)
    (Haccepts :
       regexp_match (mkRouteRegexp path regexpTypePath) (req_path req) = true)
    (Hclean : cleanPath (req_path req) = req_path req)
    (Hfree : Router_Match (router h) req = None) :
  ServeHTTP (Router (router (AddOkHandler path h))) rw req w =
    OkHandler_ServeHTTP (logger h) rw req w
  /\ ServeHTTP (Router (router (AddOkHandler path h))) (fresh_rw None) req w =
     (Returned,
      {| rw_status := Some 200; rw_header := []; rw_body := "ok";
         rw_conn_err := None |},
      w).
Proof.
  assert (Hgen : forall rw0,
    ServeHTTP (Router (router (AddOkHandler path h))) rw0 req w =
    OkHandler_ServeHTTP (logger h) rw0 req w).
  { intros rw0. rewrite ServeHTTP_Router_cases, AddOkHandler_router.
    destruct (decide (cleanPath (req_path req) = req_path req));
      [|contradiction].
    rewrite (Router_Match_app_r _ _ _ Hfree).
    unfold Router_Match. simpl.
    rewrite registered_route_match, Hcompile, Haccepts.
    unfold registered_route. rewrite Hcompile. simpl. now rewrite Hok. }
  split; [apply Hgen|]. now rewrite Hgen.
Qed.

Lemma AddOkHandler_then_dispatch_witness :
  @ServeHTTP literal_paths
    (Router (router (@AddOkHandler literal_paths "/ping" greeter)))
    (fresh_rw None) (mkRequest "HEAD" "/ping" None) initial_world =
  (Returned,
   {| rw_status := Some 200; rw_header := []; rw_body := "ok";
      rw_conn_err := None |},
   initial_world).
Proof.
  exact (proj2 (@AddOkHandler_then_dispatch literal_paths "/ping" greeter
                  (fresh_rw None) (mkRequest "HEAD" "/ping" None)
                  initial_world eq_refl eq_refl eq_refl eq_refl eq_refl)).
Defined.

(** ** The life of [Serve] *)



(** X13: the grace duration is a hard limit.  Once the context is done,
    [Serve] ends, by return or by exit, no later than the grace duration
    after that (at once for a duration that is not positive), and a normal
    return happens exactly at that moment, never earlier and never later. *)
Theorem Serve_ends_by_the_deadline `{MuxSem} (env : Env) (h : Handler)
    (w : World) (t : Z) (Hdone : done_at (ctx h) = Some t) :
  let r := Serve env h w in
  let start := Z.max (now w) t in
  let d := gracefulShutdownDuration h in
  start <= now (serve_world r) <= start + Z.max 0 d
  /\ (serve_outcome r = ServeReturns ->
      now (serve_world r) = start + Z.max 0 d)
  /\ (in_flight_at_deadline env d = true ->
      now (serve_world r) = start + Z.max 0 d).
Proof.
  intros r start d.
  destruct (Serve_done env h w t Hdone) as (_ & Ho & Hw).
  fold d r in Ho, Hw.
  set (w2 := shutdown_world h w t) in *.
  assert (Hn2 : now w2 = start) by reflexivity.
  pose proof (Server_Shutdown_error env d w2) as He.
  pose proof (Server_Shutdown_now env d w2) as Hn.
  assert (Hidle : in_flight_at_deadline env d = false ->
                  0 <= Z.max 0 (default 0 (drain env)) <= Z.max 0 d
                  /\ Z.max (start + Z.max 0 (default 0 (drain env))) (start + d)
                     = start + Z.max 0 d).
  { unfold in_flight_at_deadline. destruct (drain env) as [t'|];
      [|discriminate].
    simpl. intros Hin. apply andb_false_iff in Hin.
    destruct Hin as [Hin|Hin];
      [apply Z.ltb_ge in Hin|apply Z.leb_gt in Hin]; lia. }
  rewrite Hw, Ho.
  destruct (Server_Shutdown env (WithTimeout d w2) w2) as [[e|] w3];
    cbn [fst snd] in He, Hn.
  - change (now (Fatalf (logger h)
                   ("failed to shutdown http server: " +:+ Error e) w3))
      with (now w3).
    rewrite Hn, Hn2.
    destruct (in_flight_at_deadline env d) eqn:Hin.
    + repeat split; try lia; intros; try discriminate; reflexivity.
    + destruct (Hidle eq_refl) as (Hb & _).
      repeat split; try lia; intros; discriminate.
  - change (now (wait_Done (WithTimeout d w2) w3))
      with (Z.max (now w3) (now w2 + d)).
    rewrite Hn, Hn2.
    destruct (in_flight_at_deadline env d) eqn:Hin; [discriminate|].
    destruct (Hidle eq_refl) as (Hb & ->).
    repeat split; try lia; intros; discriminate.
Qed.

Lemma Serve_ends_by_the_deadline_witness :
  done_at (ctx coordinator) = Some 5
  /\ 5 <= now (serve_world (@Serve literal_paths stuck coordinator
                              initial_world)) <= 2000000005.
Proof.
  split; [reflexivity|].
  exact (proj1 (@Serve_ends_by_the_deadline literal_paths stuck coordinator
                  initial_world 5 eq_refl)).
Defined.

(** ** The listeners and the process *)

Lemma ListenAndServe_error (started : Z) (fails : option (Z * string))
    (shutdown_at : option Z) (t : Z) (e : Err) :
  ListenAndServe started fails shutdown_at = Some (t, e) ->
  (e = ErrServerClosed /\ shutdown_at = Some t)
  \/ (exists t0 msg,
        fails = Some (t0, msg) /\ e = ErrOther msg /\ t = Z.max started t0
        /\ forall s, shutdown_at = Some s -> t < s).
Proof.
  unfold ListenAndServe.
  destruct fails as [[t0 msg]|], shutdown_at as [s|]; intros Hr.
  - destruct (Z.ltb_spec (Z.max started t0) s); injection Hr as <- <-.
    + right. exists t0, msg. repeat split. intros s' [= <-]. exact H.
    + left. now split.
  - injection Hr as <- <-. right. exists t0, msg. repeat split.
    intros s' [=].
  - injection Hr as <- <-. left. now split.
  - discriminate.
Qed.

Section ProcessFacts.
Context `{MuxSem}.

Lemma Serve_goroutines (env : Env) (h : Handler) (w : World) :
  serve_goroutines (Serve env h w) =
  [metricsListener (metricsListen h);
   serverListener (server (serve_handler (Serve env h w)))].
Proof.
  unfold Serve. destruct (done_at (ctx _)) as [t|]; [|reflexivity].
  now destruct (Server_Shutdown _ _ _) as [[e'|] w3].
Qed.

(** The server of the metrics goroutine is never shut down, so what its
    [ListenAndServe] returns is never the closed server. *)
Lemma metrics_never_closed (ls : Listeners) (h : Handler) (w : World)
    (addr : string) (t : Z) (e : Err) :
  listener_returns ls h w (metricsListener addr) = Some (t, e) ->
  e <> ErrServerClosed.
Proof.
  intros Hr. apply ListenAndServe_error in Hr.
  destruct Hr as [[_ Hs]|(t0 & msg & _ & -> & _)]; [discriminate Hs|].
  discriminate.
Qed.

Lemma goroutine_body_fatal (h : Handler) (g : Goroutine) (e : Err)
    (w : World) :
  e <> ErrServerClosed ->
  goroutine_body h g (Some e) w =
  ProcessExits (Fatalf (logger h) (listen_failure_text h g e) w).
Proof.
  intros He. destruct g; simpl; [reflexivity|].
  unfold server_goroutine.
  destruct (decide (e = ErrServerClosed)); [contradiction|reflexivity].
Qed.

Lemma listener_exit_Some (ls : Listeners) (h : Handler) (w : World)
    (g : Goroutine) (t : Z) (w' : World) :
  listener_exit ls h w g = Some (t, w') ->
  exists e,
    listener_returns ls h w g = Some (t, e) /\ e <> ErrServerClosed
    /\ w' = Fatalf (logger h) (listen_failure_text h g e)
              (Serve_world_at h w t).
Proof.
  unfold listener_exit.
  destruct (listener_returns ls h w g) as [[t0 e]|] eqn:Hr; [|discriminate].
  assert (He : e <> ErrServerClosed \/ exists srv, g = serverListener srv).
  { destruct g as [addr|srv]; [left|right; eauto].
    exact (metrics_never_closed ls h w addr t0 e Hr). }
  destruct (decide (e = ErrServerClosed)) as [->|Hne].
  - destruct He as [He|[srv ->]]; [contradiction|]. simpl. discriminate.
  - rewrite (goroutine_body_fatal h g e _ Hne). intros [= <- <-]. eauto.
Qed.

Lemma listener_exit_fatal (ls : Listeners) (h : Handler) (w : World)
    (g : Goroutine) (t : Z) (e : Err) :
  listener_returns ls h w g = Some (t, e) -> e <> ErrServerClosed ->
  listener_exit ls h w g =
  Some (t, Fatalf (logger h) (listen_failure_text h g e)
             (Serve_world_at h w t)).
Proof.
  intros Hr He. unfold listener_exit.
  now rewrite Hr, (goroutine_body_fatal h g e _ He).
Qed.

Lemma listener_exit_closed (ls : Listeners) (h : Handler) (w : World)
    (g : Goroutine) (t : Z) :
  listener_returns ls h w g = Some (t, ErrServerClosed) ->
  listener_exit ls h w g = None
  /\ (exists srv, g = serverListener srv) /\ shutdown_time h w = Some t.
Proof.
  intros Hr. destruct g as [addr|srv].
  - now apply metrics_never_closed in Hr.
  - unfold listener_exit. rewrite Hr. simpl. split; [reflexivity|].
    split; [eauto|].
    apply ListenAndServe_error in Hr.
    destruct Hr as [[_ Hs]|(t0 & msg & _ & Hd & _)]; [exact Hs|discriminate].
Qed.

Lemma Serve_world_at_spec (h : Handler) (w : World) (t : Z) :
  now (Serve_world_at h w t) = t
  /\ httpDuration (Serve_world_at h w t) = httpDuration w
  /\ log (Serve_world_at h w t) =
     (log w ++
      [logrus.mkEntry (logger h) logrus.InfoLevel
         ("Listening on " +:+ Addr (server h))] ++
      match shutdown_time h w with
      | Some s =>
          if (s <=? t)%Z
          then [logrus.mkEntry (logger h) logrus.InfoLevel "Shutting down ..."]
          else []
      | None => []
      end)%list.
Proof.
  unfold Serve_world_at, shutdown_time, shutdown_world.
  destruct (done_at (ctx h)) as [td|]; [|now repeat split].
  destruct (Z.max (now w) td <=? t)%Z; simpl; repeat split.
  now rewrite <- app_assoc.
Qed.

(** The end of the process, by cases. *)
Lemma Process_spec (ls : Listeners) (env : Env) (h : Handler) (w : World) :
  let r := Serve env h w in
  match Process ls env h w with
  | ListenerExits g w' =>
      exists t,
        In g (serve_goroutines r)
        /\ listener_exit ls h w g = Some (t, w')
        /\ (serve_outcome r = ServeWaits \/ t < now (serve_world r))
        /\ (forall g2 t2 w2,
              In g2 (serve_goroutines r) ->
              listener_exit ls h w g2 = Some (t2, w2) -> t <= t2)
  | ServeEnds r' =>
      r' = r
      /\ (forall g t w',
            In g (serve_goroutines r) ->
            listener_exit ls h w g = Some (t, w') ->
            serve_outcome r <> ServeWaits /\ now (serve_world r) <= t)
  end.
Proof.
  intros r. pose proof (Serve_goroutines env h w) as Hg. fold r in Hg.
  unfold Process. cbv zeta. fold r. rewrite !Hg. cbn [map fold_right].
  set (gm := metricsListener (metricsListen h)).
  set (gs := serverListener (server (serve_handler r))).
  destruct (listener_exit ls h w gm) as [[tm wm]|] eqn:Hm;
    destruct (listener_exit ls h w gs) as [[ts ws]|] eqn:Hs;
    cbn [earlier];
    try destruct (Z.ltb_spec ts tm);
    destruct (serve_outcome r) eqn:Ho;
    try match goal with
        | |- context [(now (serve_world r) <=? ?t)%Z] =>
            destruct (Z.leb_spec (now (serve_world r)) t)
        end;
    repeat match goal with
           | |- exists _, _ => eexists
           | |- _ /\ _ => split
           | |- _ = _ => reflexivity
           | |- In _ _ => simpl; tauto
           | |- _ = Some _ => eassumption
           end;
    try (right; lia); try (left; reflexivity);
    try (intros g2 t2 w2 [<-|[<-|[]]] Hx; rewrite ?Hm, ?Hs in Hx;
         try discriminate; injection Hx as <- <-;
         try split; try discriminate; lia).
Qed.

End ProcessFacts.

(** C2: [Serve] starts the goroutine of the metrics server and the one of
    the primary server.  Whatever the listeners do, when [ListenAndServe]
    returns in one of them an error other than the closed server, the body of
    that goroutine calls [Fatalf], and the process does not outlive that
    moment: it ends there, unless an earlier [Fatalf] or the end of [Serve]
    came first.  When it returns the closed server, which only the primary
    server does, and only because [Serve] shut it down, the goroutine ends
    quietly.  So a listener ends the process only on an error other than the
    closed server. *)
Theorem listen_errors_are_fatal `{MuxSem} (ls : Listeners) (env : Env)
    (h : Handler) (w : World) :
  let r := Serve env h w in
  serve_goroutines r =
    [metricsListener (metricsListen h);
     serverListener (server (serve_handler r))]
  /\ (forall g t e,
        In g (serve_goroutines r) ->
        listener_returns ls h w g = Some (t, e) ->
        (e <> ErrServerClosed ->
         (forall w',
            goroutine_body h g (Some e) w' =
            ProcessExits (Fatalf (logger h) (listen_failure_text h g e) w'))
         /\ listener_exit ls h w g =
            Some (t, Fatalf (logger h) (listen_failure_text h g e)
                       (Serve_world_at h w t))
         /\ match Process ls env h w with
            | ListenerExits _ w' => now w' <= t
            | ServeEnds r' =>
                serve_outcome r' <> ServeWaits /\ now (serve_world r') <= t
            end)
        /\ (e = ErrServerClosed ->
            (forall w', goroutine_body h g (Some e) w' = GoroutineEnds w')
            /\ listener_exit ls h w g = None
            /\ shutdown_time h w = Some t))
  /\ (forall g w',
        Process ls env h w = ListenerExits g w' ->
        exists t e,
          In g (serve_goroutines r)
          /\ listener_returns ls h w g = Some (t, e)
          /\ e <> ErrServerClosed
          /\ w' = Fatalf (logger h) (listen_failure_text h g e)
                    (Serve_world_at h w t)).
Proof.
  intros r. split; [apply Serve_goroutines|].
  pose proof (Process_spec ls env h w) as Hp. cbv zeta in Hp. fold r in Hp.
  split.
  - intros g t e Hin Hr. split.
    + intros He.
      split; [intros w'; now apply goroutine_body_fatal|].
      pose proof (listener_exit_fatal ls h w g t e Hr He) as Hx.
      split; [exact Hx|].
      destruct (Process ls env h w) as [g0 w0|r'].
      * destruct Hp as (t0 & _ & Hx0 & _ & Hmin).
        specialize (Hmin g t _ Hin Hx).
        apply listener_exit_Some in Hx0 as (e0 & _ & _ & ->).
        change (now (Fatalf (logger h) (listen_failure_text h g0 e0)
                       (Serve_world_at h w t0)))
          with (now (Serve_world_at h w t0)).
        destruct (Serve_world_at_spec h w t0) as (-> & _). exact Hmin.
      * destruct Hp as (-> & Hall). exact (Hall g t _ Hin Hx).
    + intros ->.
      destruct (listener_exit_closed ls h w g t Hr) as (Hx & (srv & ->) & Hs).
      split; [|split; [exact Hx|exact Hs]].
      intros w'. reflexivity.
  - intros g w' Heq. rewrite Heq in Hp.
    destruct Hp as (t & Hin & Hx & _).
    apply listener_exit_Some in Hx as (e & Hr & He & ->).
    exists t, e. now repeat split.
Qed.

Lemma listen_errors_are_fatal_witness :
  listener_returns port_taken waiting initial_world
    (serverListener
       (server (serve_handler
                  (@Serve literal_paths idle waiting initial_world)))) =
  Some (0, ErrOther "listen tcp :8080: bind: address already in use")
  /\ match @Process literal_paths port_taken idle waiting initial_world with
     | ListenerExits _ w' => now w' <= 0
     | ServeEnds r' =>
         serve_outcome r' <> ServeWaits /\ now (serve_world r') <= 0
     end.
Proof.
  split; [reflexivity|].
  refine (proj2 (proj2 (proj1
    (proj1 (proj2 (@listen_errors_are_fatal literal_paths port_taken idle
                     waiting initial_world))
       (serverListener
          (server (serve_handler
                     (@Serve literal_paths idle waiting initial_world))))
       0 (ErrOther "listen tcp :8080: bind: address already in use")
       _ eq_refl)
    _))).
  - right. left. reflexivity.
  - discriminate.
Defined.

(** With the primary port taken the process exits at once, before the
    context is ever done: the log is the entry of listening and the fatal
    entry of the goroutine. *)
Example port_taken_exits :
  @Process literal_paths port_taken idle waiting initial_world =
  ListenerExits
    (serverListener
       (server (serve_handler (@Serve literal_paths idle waiting initial_world))))
    {| now := 0;
       log := [logrus.mkEntry "http" logrus.InfoLevel "Listening on :8080";
               logrus.mkEntry "http" logrus.FatalLevel
                 "failed to listen on :8080: listen tcp :8080: bind: address already in use"];
       httpDuration := ∅ |}.
Proof. reflexivity. Qed.

